(** * VigilIntel connector: date reconciliation and ingestion loop

    A shallow embedding of [lib/vigilintel.py] (class [VigilIntelConnector])
    and the properties of its date range computation, download, validation
    and processing loop. *)

From Stdlib Require Import ZArith String Ascii.
From stdpp Require Import base decidable option list list_numbers gmap strings pretty.
From Equations Require Import Equations.

Set Warnings "-register-all,-clear-no-such-hyp".
Local Open Scope string_scope.
Local Open Scope Z_scope.

(** ** Python values

    The values [response.json()] and [helper.get_state()] deliver: [None],
    booleans, integers, floats, strings, lists and dicts with string keys.
    A float is kept as its literal text: the connector never inspects one. *)

Inductive pyvalue : Type :=
| PyNone
| PyBool (b : bool)
| PyInt (z : Z)
| PyFloat (literal : string)
| PyStr (s : string)
| PyList (items : list pyvalue)
| PyDict (entries : gmap string pyvalue).

(** [x is None] *)
Definition is_none (v : pyvalue) : bool :=
  match v with PyNone => true | _ => false end.

(** [isinstance(x, dict)] and [isinstance(x, list)] *)
Definition isinstance_dict (v : pyvalue) : bool :=
  match v with PyDict _ => true | _ => false end.

Definition isinstance_list (v : pyvalue) : bool :=
  match v with PyList _ => true | _ => false end.

(** [x == s] for a string literal [s]: only a string compares equal. *)
Definition eq_str (v : pyvalue) (s : string) : bool :=
  match v with PyStr t => bool_decide (t = s) | _ => false end.

(** ** Exceptions that escape a method

    [ValueError], [TypeError], the [requests] exceptions and whatever the
    sink raises are caught where they occur; what is left is the
    [OverflowError] of date arithmetic outside [datetime]'s range. *)

Inductive exn : Type := OverflowError.

Inductive result (A : Type) : Type :=
| Ok (a : A)
| Raise (e : exn).
Arguments Ok {A} a.
Arguments Raise {A} e.

#[global] Instance result_ret : MRet result := λ A a, Ok a.

#[global] Instance result_bind : MBind result := λ A B k r,
  match r with Ok a => k a | Raise e => Raise e end.

(** ** Calendar

    [datetime] counts days by proleptic Gregorian ordinal: day 1 is
    0001-01-01 and day [MAXORDINAL] is 9999-12-31. *)

Module Calendar.

Definition MINORDINAL : Z := 1.
Definition MAXORDINAL : Z := 3652059.

Definition DI400Y : Z := 146097.
Definition DI100Y : Z := 36524.
Definition DI4Y : Z := 1461.

Definition is_leap (year : Z) : bool :=
  (year mod 4 =? 0) && (negb (year mod 100 =? 0) || (year mod 400 =? 0)).

Definition DAYS_IN_MONTH : list Z :=
  [0; 31; 28; 31; 30; 31; 30; 31; 31; 30; 31; 30; 31].

Definition DAYS_BEFORE_MONTH : list Z :=
  [0; 0; 31; 59; 90; 120; 151; 181; 212; 243; 273; 304; 334].

Definition days_in_month (year month : Z) : Z :=
  if (month =? 2) && is_leap year then 29
  else default 0 (DAYS_IN_MONTH !! Z.to_nat month).

Definition days_before_month (year month : Z) : Z :=
  default 0 (DAYS_BEFORE_MONTH !! Z.to_nat month)
  + (if (2 <? month) && is_leap year then 1 else 0).

Definition days_before_year (year : Z) : Z :=
  let y := year - 1 in
  y * 365 + y / 4 - y / 100 + y / 400.

Definition ymd2ord (year month day : Z) : Z :=
  days_before_year year + days_before_month year month + day.

Definition ord2ymd (ordinal : Z) : Z * Z * Z :=
  let n := ordinal - 1 in
  let n400 := n / DI400Y in
  let n := n mod DI400Y in
  let year := n400 * 400 + 1 in
  let n100 := n / DI100Y in
  let n := n mod DI100Y in
  let n4 := n / DI4Y in
  let n := n mod DI4Y in
  let n1 := n / 365 in
  let n := n mod 365 in
  let year := year + n100 * 100 + n4 * 4 + n1 in
  if (n1 =? 4) || (n100 =? 4) then (year - 1, 12, 31)
  else
    let leapyear := (n1 =? 3) && (negb (n4 =? 24) || (n100 =? 3)) in
    let month := Z.shiftr (n + 50) 5 in
    let preceding :=
      default 0 (DAYS_BEFORE_MONTH !! Z.to_nat month)
      + (if (2 <? month) && leapyear then 1 else 0) in
    if n <? preceding then
      let month := month - 1 in
      let preceding :=
        preceding
        - (default 0 (DAYS_IN_MONTH !! Z.to_nat month)
           + (if (month =? 2) && leapyear then 1 else 0)) in
      (year, month, n - preceding + 1)
    else (year, month, n - preceding + 1).

(** ["%0<width>d" % z] for a non-negative [z] *)
Fixpoint zeros (n : nat) : string :=
  match n with O => "" | S n => "0" ++ zeros n end.

Definition zero_pad (width : nat) (z : Z) : string :=
  let s := pretty z in
  zeros (width - String.length s) ++ s.

End Calendar.

(** ** Aware UTC datetimes

    Every [datetime] of the connector carries [tzinfo=timezone.utc]
    ([datetime.now(timezone.utc)], [.replace(tzinfo=timezone.utc)]), so one
    is its day and its time of day, here in microseconds since midnight.
    Comparison is by day, then by time of day. *)

Record datetime : Type := mk_datetime {
  toordinal : Z;
  time_of_day : Z
}.

Definition midnight (ordinal : Z) : datetime := mk_datetime ordinal 0.

(** [dt.replace(hour=0, minute=0, second=0, microsecond=0)] *)
Definition replace_midnight (dt : datetime) : datetime :=
  midnight (toordinal dt).

(** [a <= b] and [a > b] *)
Definition dt_le (a b : datetime) : bool :=
  (toordinal a <? toordinal b)
  || ((toordinal a =? toordinal b) && (time_of_day a <=? time_of_day b)).

Definition dt_gt (a b : datetime) : bool := negb (dt_le a b).

(** [dt + timedelta(days=n)]: the day moves, the time of day stays; a
    result before 0001-01-01 or after 9999-12-31 is an [OverflowError]
    (and so is a [timedelta] of more than 999999999 days, which always
    leaves that range). *)
Definition add_days (dt : datetime) (n : Z) : result datetime :=
  let o := toordinal dt + n in
  if (Calendar.MINORDINAL <=? o) && (o <=? Calendar.MAXORDINAL)
  then Ok (mk_datetime o (time_of_day dt))
  else Raise OverflowError.

(** [dt.isoformat()] of an aware UTC datetime:
    [YYYY-MM-DDTHH:MM:SS+00:00], with [.ffffff] after the seconds when the
    microsecond is not zero. *)
Definition isoformat (dt : datetime) : string :=
  let '(y, m, d) := Calendar.ord2ymd (toordinal dt) in
  let us := time_of_day dt in
  let secs := us / 1000000 in
  let frac := us mod 1000000 in
  Calendar.zero_pad 4 y ++ "-" ++ Calendar.zero_pad 2 m ++ "-"
  ++ Calendar.zero_pad 2 d ++ "T"
  ++ Calendar.zero_pad 2 (secs / 3600) ++ ":"
  ++ Calendar.zero_pad 2 (secs / 60 mod 60) ++ ":"
  ++ Calendar.zero_pad 2 (secs mod 60)
  ++ (if frac =? 0 then "" else "." ++ Calendar.zero_pad 6 frac)
  ++ "+00:00".

(** [datetime(year, month, day, tzinfo=timezone.utc)] *)
Definition utc_date (year month day : Z) : datetime :=
  midnight (Calendar.ymd2ord year month day).

(** ** The connector and its collaborators *)

(** The settings [__init__] reads. *)
Record VigilIntelConnector : Type := {
  language : string;
  lookback_days : Z;
  interval_hours : Z;
  base_url : string
}.

(** What [requests.get(url, timeout=30)] does: it raises a
    [RequestException] (connection failure, timeout, ...) or delivers a
    response with its status code and what [response.json()] makes of the
    body, [None] when that raises [JSONDecodeError]. *)
Inductive http_outcome : Type :=
| RequestFailed
| Response (status_code : Z) (json : option pyvalue).

(** The world around one pass.
    - [utcnow] is the clock [_compute_date_range] reads, [utcnow_last_run]
      the one read when the new state is stamped.
    - [fromisoformat s] is [datetime.fromisoformat(s).replace(tzinfo=utc)],
      [None] when it raises [ValueError].
    - [requests_get d] is what [requests.get(self._build_url(d), timeout=30)]
      does while the date [d] is visited: the URL is a function of the date
      and of the settings, and the template is one [str.format] accepts.
    - [send_stix2_bundle d bundle] tells whether serializing [bundle] and
      handing it to [helper.send_stix2_bundle] while [d] is visited raises
      nothing.
    The helper's work and logging calls return normally. *)
Record Environment : Type := {
  utcnow : datetime;
  utcnow_last_run : datetime;
  fromisoformat : string → option datetime;
  requests_get : datetime → http_outcome;
  send_stix2_bundle : datetime → pyvalue → bool
}.

(** ** Date range *)

(** A value together with the fact that it is the value of the term
    matched on. *)
Definition inspect {A : Type} (a : A) : {b : A | a = b} := exist _ a eq_refl.

(** The [while current <= today] loop of [_compute_date_range]. *)
Equations? date_loop (today current : datetime) (dates : list datetime)
  : result (list datetime)
  by wf (Z.to_nat (toordinal today + 1 - toordinal current)) lt :=
  date_loop today current dates with inspect (dt_le current today) := {
    | exist _ false _ := Ok dates
    | exist _ true Hle with inspect (add_days current 1) := {
        | exist _ (Raise e) _ := Raise e
        | exist _ (Ok next) Hnext :=
            date_loop today next (dates ++ [current]) } }.
Proof.
  unfold add_days in Hnext. unfold dt_le in Hle.
  destruct (_ && _) in Hnext; [|discriminate].
  injection Hnext as <-. simpl. lia.
Qed.

(** The persisted watermark, [None] when there is none or when it does not
    parse: indexing raises nothing here since the key is present;
    [fromisoformat] raises [TypeError] on anything but a string and
    [ValueError] on a string it cannot parse, and both are caught. *)
Definition read_last_processed (env : Environment)
    (state : option (gmap string pyvalue)) : option datetime :=
  match state with
  | Some st =>
      if negb (bool_decide (size st = 0%nat))
         && bool_decide (is_Some (st !! "last_processed_date"))
      then match st !! "last_processed_date" with
           | Some (PyStr s) => fromisoformat env s
           | _ => None
           end
      else None
  | None => None
  end.

Definition today (env : Environment) : datetime :=
  replace_midnight (utcnow env).

Definition _compute_date_range (self : VigilIntelConnector) (env : Environment)
    (state : option (gmap string pyvalue)) : result (list datetime) :=
  let today := today env in
  match read_last_processed env state with
  | None =>
      start_date ← add_days today (- lookback_days self);
      date_loop today start_date []
  | Some last_processed =>
      start_date ← add_days last_processed 1;
      if dt_gt start_date today then Ok []
      else date_loop today start_date []
  end.

(** ** Download and validation *)

(** [response.raise_for_status()] raises [HTTPError], a
    [RequestException], on a 4xx or 5xx status. *)
Definition raise_for_status (status_code : Z) : bool :=
  (400 <=? status_code) && (status_code <? 600).

(** [_download_report]: [None] on a 404, on any [RequestException] and on
    a body that is not JSON; otherwise whatever value the body parses to. *)
Definition _download_report (r : http_outcome) : pyvalue :=
  match r with
  | RequestFailed => PyNone
  | Response status_code json =>
      if status_code =? 404 then PyNone
      else if raise_for_status status_code then PyNone
      else match json with
           | Some v => v
           | None => PyNone
           end
  end.

(** [d.get(key)], [key in d] and [d[key]] on a value known to be a dict;
    [d[key]] is only evaluated behind [key in d]. *)
Definition dict_get (v : pyvalue) (key : string) : pyvalue :=
  match v with
  | PyDict d => default PyNone (d !! key)
  | _ => PyNone
  end.

Definition dict_contains (v : pyvalue) (key : string) : bool :=
  match v with
  | PyDict d => bool_decide (is_Some (d !! key))
  | _ => false
  end.

Definition dict_getitem (v : pyvalue) (key : string) : pyvalue :=
  dict_get v key.

Definition _validate_stix_bundle (bundle : pyvalue) : bool :=
  if negb (isinstance_dict bundle) then false
  else if negb (eq_str (dict_get bundle "type") "bundle") then false
  else if negb (dict_contains bundle "objects")
          || negb (isinstance_list (dict_getitem bundle "objects"))
  then false
  else true.

(** ** Ingestion *)

(** [_send_to_opencti]: [True] when serializing and sending raise nothing.
    [json.dumps] cannot fail on a value that came out of [response.json()],
    so the answer is the sink's. *)
Definition _send_to_opencti (env : Environment) (target_date : datetime)
    (bundle : pyvalue) : bool :=
  send_stix2_bundle env target_date bundle.

(** The local variables of [_process_dates] that the loop updates, and the
    bundles handed to [helper.send_stix2_bundle] so far. *)
Record loop_vars : Type := mk_loop_vars {
  success_count : nat;
  skip_count : nat;
  error_count : nat;
  last_success_date : option datetime;
  sent : list pyvalue
}.

Definition initial_vars : loop_vars := mk_loop_vars 0 0 0 None [].

(** One turn of the [for] loop. *)
Definition visit (env : Environment) (vars : loop_vars)
    (target_date : datetime) : loop_vars :=
  let bundle := _download_report (requests_get env target_date) in
  if is_none bundle then
    mk_loop_vars (success_count vars) (S (skip_count vars)) (error_count vars)
                 (Some target_date) (sent vars)
  else if negb (_validate_stix_bundle bundle) then
    mk_loop_vars (success_count vars) (skip_count vars) (S (error_count vars))
                 (Some target_date) (sent vars)
  else if _send_to_opencti env target_date bundle then
    mk_loop_vars (S (success_count vars)) (skip_count vars) (error_count vars)
                 (Some target_date) (sent vars ++ [bundle])
  else
    mk_loop_vars (success_count vars) (skip_count vars) (S (error_count vars))
                 (last_success_date vars) (sent vars ++ [bundle]).

Definition process_loop (env : Environment) (dates : list datetime)
    : loop_vars :=
  foldl (visit env) initial_vars dates.

(** The state [_process_dates] persists for a watermark. *)
Definition new_state (env : Environment) (last_success_date : datetime)
    : gmap string pyvalue :=
  {[ "last_processed_date" := PyStr (isoformat last_success_date);
     "last_run" := PyStr (isoformat (utcnow_last_run env)) ]}.

Definition summary (success_count skip_count error_count total : nat)
    : string :=
  pretty success_count ++ " imported, " ++ pretty skip_count ++ " skipped, "
  ++ pretty error_count ++ " errors (out of " ++ pretty total ++ " dates)".

Definition message (vars : loop_vars) (total : nat) : string :=
  "VigilIntel run complete — "
  ++ summary (success_count vars) (skip_count vars) (error_count vars) total.

(** What one call of [_process_dates] leaves behind: the loop's variables,
    the argument of [helper.set_state] and the message given to
    [work.to_processed], each [None] when the call is not made. *)
Record pass : Type := mk_pass {
  total : nat;
  vars : loop_vars;
  set_state : option (gmap string pyvalue);
  to_processed : option string
}.

(** The block that updates the connector state: the argument of
    [helper.set_state] when [last_success_date is not None and
    success_count >= 1], no call otherwise. *)
Definition update_state (env : Environment) (vars : loop_vars)
    : option (gmap string pyvalue) :=
  match last_success_date vars with
  | Some d =>
      if bool_decide (1 ≤ success_count vars)%nat
      then Some (new_state env d)
      else None
  | None => None
  end.

Definition _process_dates (self : VigilIntelConnector) (env : Environment)
    (state : option (gmap string pyvalue)) : result pass :=
  dates ← _compute_date_range self env state;
  match dates with
  | [] => Ok (mk_pass 0 initial_vars None None)
  | _ =>
      let total := length dates in
      let vars := process_loop env dates in
      Ok (mk_pass total vars (update_state env vars)
                  (Some (message vars total)))
  end.

(** One turn of [run]: the pass, with any exception caught and logged;
    the result is what the state store holds afterwards. *)
Definition run_pass (self : VigilIntelConnector) (env : Environment)
    (state : option (gmap string pyvalue)) : option (gmap string pyvalue) :=
  match _process_dates self env state with
  | Ok p =>
      match set_state p with
      | Some st => Some st
      | None => state
      end
  | Raise _ => state
  end.

(** ** Vocabulary of the properties *)

(** The datetime of a day at a given time of day. *)
Definition on_day (time : Z) (ordinal : Z) : datetime :=
  mk_datetime ordinal time.

(** How many times the body of [date_loop] runs: once for each day from
    [current]'s to [today]'s, the last one only when [current]'s time of
    day is not after [today]'s. *)
Definition turns (today current : datetime) : Z :=
  if time_of_day current <=? time_of_day today
  then toordinal today + 1 - toordinal current
  else toordinal today - toordinal current.

(** A field of a payload that is a dict. *)
Definition field (payload : pyvalue) (key : string) : option pyvalue :=
  match payload with
  | PyDict d => d !! key
  | _ => None
  end.

(** The state store holds no watermark. *)
Definition watermark_absent (state : option (gmap string pyvalue)) : Prop :=
  match state with
  | Some st => st !! "last_processed_date" = None
  | None => True
  end.

(** Each date of the list is the day after the one before it. *)
Definition contiguous (dates : list datetime) : Prop :=
  ∀ (i : nat) d d',
    dates !! i = Some d → dates !! S i = Some d' →
    d' = mk_datetime (toordinal d + 1) (time_of_day d).

(** The fetch of a date fails: the request raises, the status is an error
    status other than 404, or the body is not JSON. *)
Definition fetch_fails (r : http_outcome) : Prop :=
  match r with
  | RequestFailed => True
  | Response status_code json =>
      status_code ≠ 404 ∧ (raise_for_status status_code = true ∨ json = None)
  end.

(** The fetch of a date delivers a body that parses to [v]. *)
Definition fetch_delivers (r : http_outcome) (v : pyvalue) : Prop :=
  ∃ status_code,
    r = Response status_code (Some v)
    ∧ status_code ≠ 404 ∧ raise_for_status status_code = false.

(** The date's bundle reaches [helper.send_stix2_bundle], which raises. *)
Definition forwarding_fails (env : Environment) (d : datetime) : bool :=
  let bundle := _download_report (requests_get env d) in
  negb (is_none bundle) && _validate_stix_bundle bundle
  && negb (_send_to_opencti env d bundle).

(** How the loop counts a date: as skipped, as an error or as imported. *)
Definition counted_skipped (env : Environment) (d : datetime) : bool :=
  is_none (_download_report (requests_get env d)).

Definition counted_error (env : Environment) (d : datetime) : bool :=
  let bundle := _download_report (requests_get env d) in
  negb (is_none bundle)
  && (negb (_validate_stix_bundle bundle)
      || negb (_send_to_opencti env d bundle)).

Definition counted_imported (env : Environment) (d : datetime) : bool :=
  let bundle := _download_report (requests_get env d) in
  negb (is_none bundle) && _validate_stix_bundle bundle
  && _send_to_opencti env d bundle.

(** The watermark a state store holds covers the date. *)
Definition covered (store : option (gmap string pyvalue)) (d : datetime)
    : Prop :=
  ∃ st w,
    store = Some st
    ∧ st !! "last_processed_date" = Some (PyStr (isoformat w))
    ∧ toordinal d ≤ toordinal w.

(** How many dates the pass imported. *)
Definition imported (self : VigilIntelConnector) (env : Environment)
    (state : option (gmap string pyvalue)) : nat :=
  match _process_dates self env state with
  | Ok p => success_count (vars p)
  | Raise _ => 0
  end.

(** The range is the backfill of the lookback window. *)
Definition backfills (self : VigilIntelConnector) (env : Environment)
    (state : option (gmap string pyvalue)) : Prop :=
  ∃ dates,
    _compute_date_range self env state = Ok dates
    ∧ length dates = Z.to_nat (lookback_days self + 1)
    ∧ last dates = Some (today env)
    ∧ contiguous dates.

(** The range resumes after a watermark of day [D]. *)
Definition resumes_after (self : VigilIntelConnector) (env : Environment)
    (state : option (gmap string pyvalue)) (D : Z) : Prop :=
  ∃ dates,
    _compute_date_range self env state = Ok dates
    ∧ if decide (D < toordinal (today env))
      then dates = midnight <$> seqZ (D + 1) (toordinal (today env) - D)
           ∧ head dates = Some (midnight (D + 1))
           ∧ last dates = Some (today env)
           ∧ contiguous dates
           ∧ NoDup dates
      else dates = [].

(** ** Concrete worlds *)

Module Scenario.

Definition connector (lookback : Z) : VigilIntelConnector :=
  {| language := "fr"; lookback_days := lookback; interval_hours := 24;
     base_url := "https://raw.githubusercontent.com/kidrek/VigilIntel/main/{year}/{month}/{year}-{month}-{day}-report.stix_{lang}.json" |}.

Definition digit (a : ascii) : option Z :=
  let n := Z.of_nat (nat_of_ascii a) - 48 in
  if (0 <=? n) && (n <=? 9) then Some n else None.

Fixpoint number (s : string) (acc : Z) : option Z :=
  match s with
  | EmptyString => Some acc
  | String a rest =>
      match digit a with
      | Some n => number rest (acc * 10 + n)
      | None => None
      end
  end.

(** The strings of [fromisoformat] these worlds need: [YYYY-MM-DD],
    alone or followed by [T00:00:00+00:00] as the connector writes it. *)
Definition fromisoformat_midnight (s : string) : option datetime :=
  let tail := substring 10 (String.length s - 10) s in
  if bool_decide (tail = "") || bool_decide (tail = "T00:00:00+00:00") then
    match number (substring 0 4 s) 0, number (substring 5 2 s) 0,
          number (substring 8 2 s) 0 with
    | Some y, Some m, Some d =>
        if bool_decide (substring 4 1 s = "-")
           && bool_decide (substring 7 1 s = "-")
           && (1 <=? y) && (1 <=? m) && (m <=? 12)
           && (1 <=? d) && (d <=? Calendar.days_in_month y m)
        then Some (utc_date y m d) else None
    | _, _, _ => None
    end
  else None.

(** A clock reading 2024-03-10 12:00:00 UTC, then a minute later. *)
Definition noon : Z := 43200000000.

Definition world (get : datetime → http_outcome)
    (send : datetime → pyvalue → bool) : Environment :=
  {| utcnow := mk_datetime (Calendar.ymd2ord 2024 3 10) noon;
     utcnow_last_run := mk_datetime (Calendar.ymd2ord 2024 3 10) (noon + 60000000);
     fromisoformat := fromisoformat_midnight;
     requests_get := get;
     send_stix2_bundle := send |}.

Definition bundle (objects : list pyvalue) : pyvalue :=
  PyDict {[ "type" := PyStr "bundle"; "objects" := PyList objects ]}.

Definition five_objects : list pyvalue :=
  [PyStr "a"; PyStr "b"; PyStr "c"; PyStr "d"; PyStr "e"].

(** 03-08 answers 404, 03-09 a bundle of five objects, 03-10 does not
    answer; the sink takes what it is given. *)
Definition section8 : Environment :=
  world (λ d,
           if toordinal d =? Calendar.ymd2ord 2024 3 8 then Response 404 None
           else if toordinal d =? Calendar.ymd2ord 2024 3 9
                then Response 200 (Some (bundle five_objects))
                else RequestFailed)
        (λ _ _, true).

(** Every date has a valid bundle; the sink refuses on 03-10. *)
Definition sink_down_on_last : Environment :=
  world (λ _, Response 200 (Some (bundle five_objects)))
        (λ d _, negb (toordinal d =? Calendar.ymd2ord 2024 3 10)).

(** Every date answers 404. *)
Definition nothing_published : Environment :=
  world (λ _, Response 404 None) (λ _ _, true).

(** Every date answers 200 with the body [null]. *)
Definition null_body : Environment :=
  world (λ _, Response 200 (Some PyNone)) (λ _ _, true).

(** Every date answers 200 with a body that is a list. *)
Definition list_body : Environment :=
  world (λ _, Response 200 (Some (PyList []))) (λ _ _, true).

(** Every date has a valid bundle and the sink takes it. *)
Definition all_fine : Environment :=
  world (λ _, Response 200 (Some (bundle five_objects))) (λ _ _, true).

Definition state_of (watermark : pyvalue) : option (gmap string pyvalue) :=
  Some {[ "last_processed_date" := watermark;
          "last_run" := PyStr "2024-03-07T12:01:00+00:00" ]}.

(** What the pass over [section8] leaves, from no prior state and a
    lookback of two days. *)
Definition section8_pass : pass :=
  mk_pass 3
    (mk_loop_vars 1 2 0 (Some (utc_date 2024 3 10)) [bundle five_objects])
    (Some (new_state section8 (utc_date 2024 3 10)))
    (Some "VigilIntel run complete — 1 imported, 2 skipped, 0 errors (out of 3 dates)").

(** The same for [sink_down_on_last]. *)
Definition sink_down_pass : pass :=
  mk_pass 3
    (mk_loop_vars 2 0 1 (Some (utc_date 2024 3 9))
       [bundle five_objects; bundle five_objects; bundle five_objects])
    (Some (new_state sink_down_on_last (utc_date 2024 3 9)))
    (Some "VigilIntel run complete — 2 imported, 0 skipped, 1 errors (out of 3 dates)").

End Scenario.

(** ** [run] and what a pass forwards *)

(** [run], for as many turns of its [while True] loop as there are worlds:
    each turn is one pass in the world the connector wakes up in after its
    sleep of [interval_hours] hours, with any exception caught and logged;
    the result is the state store after the last turn. *)
Definition run (self : VigilIntelConnector) (worlds : list Environment)
    (state : option (gmap string pyvalue)) : option (gmap string pyvalue) :=
  foldl (λ st env, run_pass self env st) state worlds.

(** The bundle a date hands to [_send_to_opencti], if it gets that far. *)
Definition forwarded (env : Environment) (d : datetime) : option pyvalue :=
  let bundle := _download_report (requests_get env d) in
  if negb (is_none bundle) && _validate_stix_bundle bundle
  then Some bundle
  else None.

(** Worlds on other days than [Scenario]'s. *)
Module Later.

(** A world whose clock reads noon of the given day. *)
Definition world_on (ordinal : Z) (get : datetime → http_outcome)
    (send : datetime → pyvalue → bool) : Environment :=
  {| utcnow := mk_datetime ordinal Scenario.noon;
     utcnow_last_run := mk_datetime ordinal (Scenario.noon + 60000000);
     fromisoformat := Scenario.fromisoformat_midnight;
     requests_get := get;
     send_stix2_bundle := send |}.

(** Every date has a valid bundle and the sink takes it. *)
Definition fine_on (ordinal : Z) : Environment :=
  world_on ordinal
    (λ _, Response 200 (Some (Scenario.bundle Scenario.five_objects)))
    (λ _ _, true).

(** The host is unreachable. *)
Definition offline_on (ordinal : Z) : Environment :=
  world_on ordinal (λ _, RequestFailed) (λ _ _, true).

(** Every date has a valid bundle; the sink refuses the one of 03-09. *)
Definition sink_down_on_middle : Environment :=
  Scenario.world
    (λ _, Response 200 (Some (Scenario.bundle Scenario.five_objects)))
    (λ d _, negb (toordinal d =? Calendar.ymd2ord 2024 3 9)).

(** A world of 2024-03-10 whose [fromisoformat] also reads a watermark
    written at three in the afternoon of 03-07. *)
Definition afternoon : Z := 54000000000.

Definition reads_afternoon : Environment :=
  {| utcnow := mk_datetime (Calendar.ymd2ord 2024 3 10) Scenario.noon;
     utcnow_last_run :=
       mk_datetime (Calendar.ymd2ord 2024 3 10) (Scenario.noon + 60000000);
     fromisoformat := λ s,
       if bool_decide (s = "2024-03-07T15:00:00+00:00")
       then Some (mk_datetime (Calendar.ymd2ord 2024 3 7) afternoon)
       else Scenario.fromisoformat_midnight s;
     requests_get :=
       λ _, Response 200 (Some (Scenario.bundle Scenario.five_objects));
     send_stix2_bundle := λ _ _, true |}.

End Later.

(** ** Settings and URL *)

(** The class constant [_BASE_URL]. *)
Definition _BASE_URL : string :=
  "https://raw.githubusercontent.com/kidrek/VigilIntel/main/{year}/{month}/{year}-{month}-{day}-report.stix_{lang}.json".



(** [dt.strftime("%Y")], ["%m"] and ["%d"]. The year has four digits from
    the year 1000 on; before that its padding depends on the platform. *)
Definition strftime_Y (dt : datetime) : string :=
  let '(y, _, _) := Calendar.ord2ymd (toordinal dt) in Calendar.zero_pad 4 y.

Definition strftime_m (dt : datetime) : string :=
  let '(_, m, _) := Calendar.ord2ymd (toordinal dt) in Calendar.zero_pad 2 m.

Definition strftime_d (dt : datetime) : string :=
  let '(_, _, d) := Calendar.ord2ymd (toordinal dt) in Calendar.zero_pad 2 d.

(** [template.format] with keyword arguments that are strings, for
    templates made of
    literal text, the escapes [{{] and [}}] and replacement fields
    [{name}]. [None] when [str.format] raises (a name that is not among
    the fields, a lone brace, an empty field) and for the field syntax
    left out here (conversions, format specifications, attributes and
    indices). *)
Inductive format_state : Type :=
| Literal
| Opened
| Closed
| Field (name : string).

Fixpoint format_from (fields : string → option string) (state : format_state)
    (template : string) : option string :=
  match template with
  | EmptyString =>
      match state with
      | Literal => Some EmptyString
      | _ => None
      end
  | String c rest =>
      match state with
      | Literal =>
          if Ascii.eqb c "{" then format_from fields Opened rest
          else if Ascii.eqb c "}" then format_from fields Closed rest
          else String c <$> format_from fields Literal rest
      | Opened =>
          if Ascii.eqb c "{" then String c <$> format_from fields Literal rest
          else if Ascii.eqb c "}" then None
          else format_from fields (Field (String c EmptyString)) rest
      | Closed =>
          if Ascii.eqb c "}" then String c <$> format_from fields Literal rest
          else None
      | Field name =>
          if Ascii.eqb c "}" then
            match fields name with
            | Some value => String.append value <$> format_from fields Literal rest
            | None => None
            end
          else format_from fields (Field (name ++ String c EmptyString)) rest
      end
  end.

Definition str_format (template : string) (fields : string → option string)
    : option string :=
  format_from fields Literal template.

(** The keyword arguments of the [format] call in [_build_url]. *)
Definition url_fields (year month day lang : string) (name : string)
    : option string :=
  if bool_decide (name = "year") then Some year
  else if bool_decide (name = "month") then Some month
  else if bool_decide (name = "day") then Some day
  else if bool_decide (name = "lang") then Some lang
  else None.

Definition _build_url (self : VigilIntelConnector) (target_date : datetime)
    : option string :=
  str_format (base_url self)
    (url_fields (strftime_Y target_date) (strftime_m target_date)
                (strftime_d target_date) (language self)).

(** The URL of the default template, written out. *)
Definition default_url (year month day lang : string) : string :=
  "https://raw.githubusercontent.com/kidrek/VigilIntel/main/"
  ++ year ++ "/" ++ month ++ "/" ++ year ++ "-" ++ month ++ "-" ++ day
  ++ "-report.stix_" ++ lang ++ ".json".

(** [check] holds of [count] numbers from [n] on. *)
Fixpoint all_from (check : Z → bool) (n : Z) (count : nat) : bool :=
  match count with
  | O => true
  | S count => check n && all_from check (n + 1) count
  end.

(** A number padded to a width reads back and has that width. *)
Definition pad_ok (width : nat) (z : Z) : bool :=
  let s := Calendar.zero_pad width z in
  bool_decide (String.length s = width)
  && bool_decide (Scenario.number s 0 = Some z).

(** The month and the day of month [ord2ymd] finds for the day [n] of a
    year, counted from 0, leap or not. *)
Definition month_day (n : Z) (leapyear : bool) : Z * Z :=
  let month := Z.shiftr (n + 50) 5 in
  let preceding :=
    default 0 (Calendar.DAYS_BEFORE_MONTH !! Z.to_nat month)
    + (if (2 <? month) && leapyear then 1 else 0) in
  if n <? preceding then
    let month := month - 1 in
    let preceding :=
      preceding
      - (default 0 (Calendar.DAYS_IN_MONTH !! Z.to_nat month)
         + (if (month =? 2) && leapyear then 1 else 0)) in
    (month, n - preceding + 1)
  else (month, n - preceding + 1).

(** They are a month and a day of month, and the days before them in the
    year are [n]. *)
Definition month_day_ok (leapyear : bool) (n : Z) : bool :=
  let '(m, d) := month_day n leapyear in
  (1 <=? m) && (m <=? 12) && (1 <=? d) && (d <=? 31)
  && (default 0 (Calendar.DAYS_BEFORE_MONTH !! Z.to_nat m)
      + (if (2 <? m) && leapyear then 1 else 0) + d =? n + 1).

(** * Properties *)

(** ** Checks of the calendar and of the worlds *)

Example ordinal_2024_03_10 : Calendar.ymd2ord 2024 3 10 = 738955.
Proof. reflexivity. Qed.

Example ymd_738955 : Calendar.ord2ymd 738955 = (2024, 3, 10).
Proof. reflexivity. Qed.

Example ymd_leap_day :
  Calendar.ord2ymd (Calendar.ymd2ord 2024 2 29) = (2024, 2, 29).
Proof. reflexivity. Qed.

Example ymd_first_day : Calendar.ord2ymd Calendar.MINORDINAL = (1, 1, 1).
Proof. reflexivity. Qed.

Example ymd_last_day : Calendar.ord2ymd Calendar.MAXORDINAL = (9999, 12, 31).
Proof. reflexivity. Qed.

Example isoformat_2024_03_10 :
  isoformat (utc_date 2024 3 10) = "2024-03-10T00:00:00+00:00".
Proof. vm_compute. reflexivity. Qed.

Example isoformat_with_microseconds :
  isoformat (mk_datetime 738955 (Scenario.noon + 1))
  = "2024-03-10T12:00:00.000001+00:00".
Proof. vm_compute. reflexivity. Qed.

Example written_watermark_reads_back :
  Scenario.fromisoformat_midnight (isoformat (utc_date 2024 3 10))
  = Some (utc_date 2024 3 10).
Proof. vm_compute. reflexivity. Qed.

Example valid_bundle :
  _validate_stix_bundle (Scenario.bundle Scenario.five_objects) = true.
Proof. vm_compute. reflexivity. Qed.

Example bundle_without_objects :
  _validate_stix_bundle (PyDict {[ "type" := PyStr "bundle" ]}) = false.
Proof. vm_compute. reflexivity. Qed.

Example server_error_is_none :
  _download_report (Response 503 (Some (Scenario.bundle []))) = PyNone.
Proof. reflexivity. Qed.

Example up_to_date_is_no_work :
  _process_dates (Scenario.connector 2) Scenario.all_fine
    (Scenario.state_of (PyStr "2024-03-10T00:00:00+00:00"))
  = Ok (mk_pass 0 initial_vars None None).
Proof. vm_compute. reflexivity. Qed.

Example second_pass_is_empty :
  _compute_date_range (Scenario.connector 2) Scenario.all_fine
    (run_pass (Scenario.connector 2) Scenario.all_fine None)
  = Ok [].
Proof. vm_compute. reflexivity. Qed.

(** ** The date loop *)

Lemma date_loop_eq today current dates :
  date_loop today current dates =
  if dt_le current today
  then next ← add_days current 1; date_loop today next (dates ++ [current])
  else Ok dates.
Proof.
  funelim (date_loop today current dates);
    repeat match goal with
           | E : dt_le _ _ = _ |- _ => rewrite E
           | E : add_days _ _ = _ |- _ => rewrite E
           end; reflexivity.
Qed.

Lemma dt_le_turns today current :
  dt_le current today = bool_decide (0 < turns today current).
Proof.
  unfold dt_le, turns.
  destruct (Z.leb_spec (time_of_day current) (time_of_day today));
    destruct (Z.ltb_spec (toordinal current) (toordinal today));
    destruct (Z.eqb_spec (toordinal current) (toordinal today));
    simpl; symmetry;
    (apply bool_decide_eq_true_2 || apply bool_decide_eq_false_2); lia.
Qed.

Lemma add_days_Ok dt n :
  Calendar.MINORDINAL ≤ toordinal dt + n ≤ Calendar.MAXORDINAL →
  add_days dt n = Ok (mk_datetime (toordinal dt + n) (time_of_day dt)).
Proof.
  intros [Hlo Hhi]. unfold add_days.
  destruct (Z.leb_spec Calendar.MINORDINAL (toordinal dt + n)); [|lia].
  destruct (Z.leb_spec (toordinal dt + n) Calendar.MAXORDINAL); [|lia].
  reflexivity.
Qed.

Lemma add_days_Raise dt n :
  ¬ (Calendar.MINORDINAL ≤ toordinal dt + n ≤ Calendar.MAXORDINAL) →
  add_days dt n = Raise OverflowError.
Proof.
  intros Hout. unfold add_days.
  destruct (Z.leb_spec Calendar.MINORDINAL (toordinal dt + n));
    destruct (Z.leb_spec (toordinal dt + n) Calendar.MAXORDINAL);
    simpl; (reflexivity || lia).
Qed.

(** The loop overflows exactly when a day it has to step to is outside
    [datetime]'s range; otherwise it appends the days from [current]'s on,
    one for each turn. *)
Lemma date_loop_result today (k : nat) : ∀ current dates,
  Z.to_nat (turns today current) = k →
  date_loop today current dates =
  if decide (0 < turns today current
             ∧ (toordinal current + 1 < Calendar.MINORDINAL
                ∨ Calendar.MAXORDINAL < toordinal current + turns today current))
  then Raise OverflowError
  else Ok (dates ++ (on_day (time_of_day current)
                       <$> seqZ (toordinal current) (turns today current)))%list.
Proof.
  induction k as [|k IH]; intros current dates Hk;
    rewrite date_loop_eq, dt_le_turns.
  - rewrite bool_decide_eq_false_2 by lia.
    rewrite decide_False by lia.
    rewrite seqZ_nil by lia. simpl. by rewrite app_nil_r.
  - rewrite bool_decide_eq_true_2 by lia.
    destruct (decide (Calendar.MINORDINAL ≤ toordinal current + 1
                      ≤ Calendar.MAXORDINAL)) as [Hin|Hout].
    + rewrite add_days_Ok by done. simpl.
      assert (turns today (mk_datetime (toordinal current + 1) (time_of_day current))
              = Z.pred (turns today current)) as Hturns.
      { unfold turns; simpl. destruct (_ <=? _); lia. }
      change (mbind ?f (Ok ?x)) with (f x). cbv beta.
      rewrite IH by lia. simpl. rewrite Hturns.
      rewrite (seqZ_cons (toordinal current) (turns today current)) by lia.
      rewrite fmap_cons, <- app_assoc. simpl.
      replace (Z.succ (toordinal current)) with (toordinal current + 1) by lia.
      replace (on_day (time_of_day current) (toordinal current)) with current
        by (by destruct current).
      repeat case_decide; (reflexivity || lia).
    + rewrite add_days_Raise by done. rewrite decide_True by lia. reflexivity.
Qed.

Lemma date_loop_Ok today current dates :
  Calendar.MINORDINAL ≤ toordinal current + 1 →
  toordinal today < Calendar.MAXORDINAL →
  date_loop today current dates
  = Ok (dates ++ (on_day (time_of_day current)
                    <$> seqZ (toordinal current) (turns today current)))%list.
Proof.
  intros Hlo Hhi. rewrite (date_loop_result today _ current dates eq_refl).
  apply decide_False. unfold turns. destruct (_ <=? _); lia.
Qed.

Lemma date_loop_inv today current dates r :
  date_loop today current dates = Ok r →
  r = (dates ++ (on_day (time_of_day current)
                   <$> seqZ (toordinal current) (turns today current)))%list.
Proof.
  rewrite (date_loop_result today _ current dates eq_refl).
  case_decide; congruence.
Qed.

(** ** Runs of consecutive days *)

Lemma days_length t c n :
  length (on_day t <$> seqZ c n) = Z.to_nat n.
Proof. by rewrite length_fmap, length_seqZ. Qed.

Lemma days_lookup t c n (i : nat) d :
  (on_day t <$> seqZ c n) !! i = Some d ↔
  d = on_day t (c + Z.of_nat i) ∧ Z.of_nat i < n.
Proof.
  rewrite list_lookup_fmap, fmap_Some. setoid_rewrite lookup_seqZ.
  naive_solver.
Qed.

Lemma days_elem_of t c n d :
  d ∈ on_day t <$> seqZ c n ↔
  time_of_day d = t ∧ c ≤ toordinal d < c + n.
Proof.
  rewrite list_elem_of_fmap. setoid_rewrite elem_of_seqZ. split.
  - intros (o & -> & Ho). done.
  - intros [<- Ho]. exists (toordinal d). by destruct d.
Qed.

Lemma days_NoDup t c n : NoDup (on_day t <$> seqZ c n).
Proof.
  apply NoDup_fmap_2; [|apply NoDup_seqZ].
  intros x y Hxy. by injection Hxy.
Qed.

Lemma days_contiguous t c n : contiguous (on_day t <$> seqZ c n).
Proof.
  intros i d d' [-> _]%days_lookup [-> _]%days_lookup. simpl.
  unfold on_day. f_equal. lia.
Qed.

Lemma days_last t c n :
  0 < n → last (on_day t <$> seqZ c n) = Some (on_day t (c + n - 1)).
Proof.
  intros Hn. rewrite last_lookup, days_length.
  apply days_lookup. split; [f_equal|]; lia.
Qed.

Lemma days_snoc t c (n : nat) :
  on_day t <$> seqZ c (Z.of_nat (S n))
  = ((on_day t <$> seqZ c (Z.of_nat n)) ++ [on_day t (c + Z.of_nat n)])%list.
Proof. by rewrite seqZ_S, fmap_app. Qed.

(** ** The date range *)

Lemma read_absent env state :
  watermark_absent state → read_last_processed env state = None.
Proof.
  destruct state as [st|]; simpl; [|done].
  intros ->. by rewrite andb_false_r.
Qed.

Lemma read_present env st v :
  st !! "last_processed_date" = Some v →
  read_last_processed env (Some st)
  = match v with PyStr s => fromisoformat env s | _ => None end.
Proof.
  intros Hv. simpl.
  assert (size st ≠ 0%nat) as Hsize.
  { intros Hempty%map_size_empty_inv. by rewrite Hempty, lookup_empty in Hv. }
  rewrite (bool_decide_eq_false_2 _ Hsize), Hv.
  by rewrite bool_decide_eq_true_2 by eauto.
Qed.

(** Without a readable watermark the range is the backfill; it exists when
    its first day does. *)
Lemma backfill_range self env state :
  read_last_processed env state = None →
  Calendar.MINORDINAL ≤ toordinal (today env) - lookback_days self
    ≤ Calendar.MAXORDINAL →
  toordinal (today env) < Calendar.MAXORDINAL →
  _compute_date_range self env state
  = Ok (midnight <$> seqZ (toordinal (today env) - lookback_days self)
                          (lookback_days self + 1)).
Proof.
  intros Hread Hstart Hclock. unfold _compute_date_range. cbv zeta.
  rewrite Hread, add_days_Ok by lia.
  change (mbind ?f (Ok ?x)) with (f x). cbv beta.
  rewrite date_loop_Ok by (cbn [toordinal]; lia).
  unfold turns. cbn [toordinal time_of_day today replace_midnight midnight].
  rewrite Z.leb_refl. cbn [app]. do 3 f_equal; lia.
Qed.

(** With a watermark at midnight of day [D] the range starts the day
    after, when that day exists. *)
Lemma resume_range self env state D :
  read_last_processed env state = Some (midnight D) →
  Calendar.MINORDINAL ≤ D + 1 ≤ Calendar.MAXORDINAL →
  toordinal (today env) < Calendar.MAXORDINAL →
  _compute_date_range self env state
  = Ok (midnight <$> seqZ (D + 1) (toordinal (today env) - D)).
Proof.
  intros Hread HD Hclock. unfold _compute_date_range. cbv zeta.
  rewrite Hread, add_days_Ok by (cbn [toordinal midnight]; lia).
  change (mbind ?f (Ok ?x)) with (f x). cbv beta.
  unfold dt_gt. rewrite dt_le_turns.
  rewrite date_loop_Ok by (cbn [toordinal midnight]; lia).
  unfold turns. cbn [toordinal time_of_day today replace_midnight midnight].
  rewrite Z.leb_refl. cbn [app].
  replace (toordinal (utcnow env) + 1 - (D + 1))
    with (toordinal (utcnow env) - D) by lia.
  case_bool_decide as Hturns; cbn [negb]; [done|].
  by rewrite seqZ_nil by lia.
Qed.

(** Whatever range is computed is a run of consecutive days, after the
    watermark when there is one, up to today's at the latest. *)
Lemma range_shape self env state dates :
  _compute_date_range self env state = Ok dates →
  ∃ t c n,
    dates = on_day t <$> seqZ c (Z.of_nat n)
    ∧ (∀ d, d ∈ dates → toordinal d ≤ toordinal (today env))
    ∧ (∀ w, read_last_processed env state = Some w →
            ∀ d, d ∈ dates → toordinal w + 1 ≤ toordinal d).
Proof.
  unfold _compute_date_range.
  assert (∀ start, date_loop (today env) start [] = Ok dates →
    ∃ t c n, dates = on_day t <$> seqZ c (Z.of_nat n)
      ∧ (∀ d, d ∈ dates → toordinal d ≤ toordinal (today env))
      ∧ (∀ d, d ∈ dates → toordinal start ≤ toordinal d)) as Hloop.
  { intros start ->%date_loop_inv. cbn [app].
    exists (time_of_day start), (toordinal start),
      (Z.to_nat (turns (today env) start)).
    assert (seqZ (toordinal start) (Z.of_nat (Z.to_nat (turns (today env) start)))
            = seqZ (toordinal start) (turns (today env) start)) as ->.
    { destruct (decide (0 ≤ turns (today env) start)).
      - by rewrite Z2Nat.id.
      - by rewrite !seqZ_nil by lia. }
    split; [done|]. split; intros d [_ Hd]%days_elem_of; [|lia].
    unfold turns in Hd. destruct (time_of_day start <=? _) in Hd; lia. }
  destruct (read_last_processed env state) as [w|].
  - destruct (add_days w 1) as [start|] eqn:Hstart; [|done].
    change (mbind ?f (Ok ?x)) with (f x). cbv beta.
    assert (toordinal start = toordinal w + 1) as Hw.
    { unfold add_days in Hstart. destruct (_ && _); [|done].
      by injection Hstart as <-. }
    destruct (dt_gt start (today env)).
    + intros [= <-]. exists 0, 0, 0%nat.
      split; [done|]. split; intros; by decompose_list_elem_of.
    + intros (t & c & n & -> & Hhi & Hlo)%Hloop.
      exists t, c, n. split; [done|]. split; [done|].
      intros w' [= <-] d Hd. rewrite <- Hw. by apply Hlo.
  - destruct (add_days _ _) as [start|]; [|done].
    change (mbind ?f (Ok ?x)) with (f x). cbv beta.
    intros (t & c & n & -> & Hhi & Hlo)%Hloop.
    exists t, c, n. by repeat split.
Qed.

(** ** One date *)

Lemma download_fails r : fetch_fails r → _download_report r = PyNone.
Proof.
  destruct r as [|code json]; [done|]. intros [Hcode Hwhy]. simpl.
  destruct (Z.eqb_spec code 404); [done|].
  destruct Hwhy as [-> | ->]; [done|]. by destruct (raise_for_status code).
Qed.

Lemma download_delivers r v : fetch_delivers r v → _download_report r = v.
Proof.
  intros (code & -> & Hcode & Hstatus). simpl.
  destruct (Z.eqb_spec code 404); [done|]. by rewrite Hstatus.
Qed.

Lemma download_404 json : _download_report (Response 404 json) = PyNone.
Proof. done. Qed.

(** What validation accepts. *)
Lemma validate_true bundle :
  _validate_stix_bundle bundle = true ↔
  field bundle "type" = Some (PyStr "bundle")
  ∧ ∃ items, field bundle "objects" = Some (PyList items).
Proof.
  unfold _validate_stix_bundle, dict_getitem.
  destruct bundle as [| | | | | |d]; simpl; try by (split; [|intros [? _]]).
  destruct (d !! "type") as [[| | | |t| |]|]; simpl;
    try by (split; [|intros [? _]]).
  case_bool_decide as Ht; simpl.
  - subst t.
    destruct (d !! "objects") as [[| | | | |items|]|]; simpl.
    all: try (rewrite bool_decide_eq_true_2 by eauto; simpl).
    all: try (rewrite bool_decide_eq_false_2 by (by intros [? ?]); simpl).
    all: split; [try done|try by intros [_ [? ?]]].
    intros _. eauto.
  - split; [done|]. intros [Htype _]. congruence.
Qed.

Lemma visit_skip env vars d :
  _download_report (requests_get env d) = PyNone →
  visit env vars d
  = mk_loop_vars (success_count vars) (S (skip_count vars)) (error_count vars)
                 (Some d) (sent vars).
Proof. unfold visit. by intros ->. Qed.

Lemma visit_invalid env vars d :
  _download_report (requests_get env d) ≠ PyNone →
  _validate_stix_bundle (_download_report (requests_get env d)) = false →
  visit env vars d
  = mk_loop_vars (success_count vars) (skip_count vars) (S (error_count vars))
                 (Some d) (sent vars).
Proof.
  unfold visit. intros Hnone ->.
  by destruct (_download_report (requests_get env d)).
Qed.

Lemma visit_advances env vars d :
  forwarding_fails env d = false →
  last_success_date (visit env vars d) = Some d.
Proof.
  unfold forwarding_fails, visit.
  destruct (is_none _); [done|].
  destruct (_validate_stix_bundle _); [|done].
  by destruct (_send_to_opencti _ _ _).
Qed.

Lemma visit_stays env vars d :
  forwarding_fails env d = true →
  last_success_date (visit env vars d) = last_success_date vars
  ∧ success_count (visit env vars d) = success_count vars.
Proof.
  unfold forwarding_fails, visit.
  destruct (is_none _); [done|].
  destruct (_validate_stix_bundle _); [|done].
  by destruct (_send_to_opencti _ _ _).
Qed.

Lemma visit_sent env vars d b :
  b ∈ sent (visit env vars d) →
  b ∈ sent vars ∨ _validate_stix_bundle b = true.
Proof.
  unfold visit.
  destruct (is_none _); [by left|].
  destruct (_validate_stix_bundle _) eqn:Hvalid; [|by left].
  destruct (_send_to_opencti _ _ _); simpl;
    intros [?| ->%list_elem_of_singleton]%elem_of_app; auto.
Qed.

Lemma visit_candidate env vars d :
  (1 ≤ success_count vars)%nat → is_Some (last_success_date vars) →
  is_Some (last_success_date (visit env vars d)).
Proof.
  intros _ Hsome. unfold visit.
  destruct (is_none _); [by eexists|].
  destruct (_validate_stix_bundle _); [|by eexists].
  destruct (_send_to_opencti _ _ _); [by eexists|done].
Qed.

(** ** The loop *)

Lemma foldl_snoc env vars dates d :
  foldl (visit env) vars (dates ++ [d])
  = visit env (foldl (visit env) vars dates) d.
Proof. by rewrite foldl_app. Qed.

(** Each date is counted once: as skipped, as an error or as imported. *)
Lemma loop_counts env dates : ∀ vars,
  let vars' := foldl (visit env) vars dates in
  skip_count vars'
  = (skip_count vars
     + length (filter (λ d, counted_skipped env d = true) dates))%nat
  ∧ error_count vars'
    = (error_count vars
       + length (filter (λ d, counted_error env d = true) dates))%nat
  ∧ success_count vars'
    = (success_count vars
       + length (filter (λ d, counted_imported env d = true) dates))%nat.
Proof.
  induction dates as [|d dates IH]; intros vars; simpl; [lia|].
  specialize (IH (visit env vars d)). simpl in IH.
  destruct IH as (-> & -> & ->). rewrite !filter_cons.
  unfold counted_skipped, counted_error, counted_imported, visit.
  destruct (is_none _); simpl; [lia|].
  destruct (_validate_stix_bundle _); simpl; [|lia].
  destruct (_send_to_opencti _ _ _); simpl; lia.
Qed.

(** Only validated bundles are handed to the sink. *)
Lemma loop_sent env dates : ∀ vars b,
  b ∈ sent (foldl (visit env) vars dates) →
  b ∈ sent vars ∨ _validate_stix_bundle b = true.
Proof.
  induction dates as [|d dates IH]; intros vars b; simpl; [by left|].
  intros [[?|?]%visit_sent|?]%IH; auto.
Qed.

(** An import leaves a watermark candidate. *)
Lemma loop_candidate env dates : ∀ vars,
  ((1 ≤ success_count vars)%nat → is_Some (last_success_date vars)) →
  (1 ≤ success_count (foldl (visit env) vars dates))%nat →
  is_Some (last_success_date (foldl (visit env) vars dates)).
Proof.
  induction dates as [|d dates IH] using rev_ind; intros vars Hvars; [done|].
  rewrite foldl_snoc.
  destruct (forwarding_fails env d) eqn:Hd.
  - destruct (visit_stays env (foldl (visit env) vars dates) d Hd) as [-> ->].
    by apply IH.
  - rewrite visit_advances by done. by eexists.
Qed.

(** The candidate is the last date visited whose forwarding did not
    fail. *)
Lemma loop_last_success env dates : ∀ vars,
  last_success_date (foldl (visit env) vars dates)
  = match last (filter (λ d, forwarding_fails env d = false) dates) with
    | Some d => Some d
    | None => last_success_date vars
    end.
Proof.
  induction dates as [|d dates IH] using rev_ind; intros vars; [done|].
  rewrite foldl_snoc, filter_app, filter_cons, filter_nil.
  destruct (forwarding_fails env d) eqn:Hd.
  - rewrite decide_False by done. rewrite app_nil_r, <- IH.
    by apply visit_stays.
  - rewrite decide_True by done. rewrite last_snoc.
    by apply visit_advances.
Qed.

(** Over a run of consecutive days the candidate is no earlier than any
    date whose forwarding did not fail. *)
Lemma loop_covers env t c (n : nat) d :
  d ∈ on_day t <$> seqZ c (Z.of_nat n) →
  forwarding_fails env d = false →
  ∃ w, last_success_date (process_loop env (on_day t <$> seqZ c (Z.of_nat n)))
       = Some w
       ∧ toordinal d ≤ toordinal w.
Proof.
  unfold process_loop. induction n as [|n IH]; intros Hd Hok.
  - by apply elem_of_nil in Hd.
  - rewrite days_snoc, foldl_snoc.
    destruct (forwarding_fails env (on_day t (c + Z.of_nat n))) eqn:Hn.
    + rewrite days_snoc in Hd.
      apply elem_of_app in Hd as [Hd| ->%list_elem_of_singleton];
        [|congruence].
      destruct (IH Hd Hok) as (w & Hw & Hle). exists w.
      by rewrite (proj1 (visit_stays _ _ _ Hn)).
    + rewrite visit_advances by done. eexists; split; [done|]. simpl.
      apply days_elem_of in Hd. lia.
Qed.

(** ** The pass *)

Lemma process_dates_Ok self env state dates :
  _compute_date_range self env state = Ok dates →
  _process_dates self env state
  = Ok (mk_pass (length dates) (process_loop env dates)
                (update_state env (process_loop env dates))
                (match dates with
                 | [] => None
                 | _ => Some (message (process_loop env dates) (length dates))
                 end)).
Proof.
  intros Hdates. unfold _process_dates. rewrite Hdates.
  by destruct dates.
Qed.

Lemma process_dates_inv self env state p :
  _process_dates self env state = Ok p →
  ∃ dates,
    _compute_date_range self env state = Ok dates
    ∧ vars p = process_loop env dates
    ∧ set_state p = update_state env (process_loop env dates).
Proof.
  destruct (_compute_date_range self env state) as [dates|e] eqn:Hdates.
  - rewrite (process_dates_Ok _ _ _ _ Hdates). intros [= <-]. by exists dates.
  - unfold _process_dates. by rewrite Hdates.
Qed.

Lemma update_state_Some env vars new :
  update_state env vars = Some new ↔
  (1 ≤ success_count vars)%nat
  ∧ ∃ d, last_success_date vars = Some d ∧ new = new_state env d.
Proof.
  unfold update_state.
  destruct (last_success_date vars) as [d|]; [|naive_solver].
  case_bool_decide; naive_solver.
Qed.

Lemma new_state_watermark env d :
  new_state env d !! "last_processed_date" = Some (PyStr (isoformat d)).
Proof. unfold new_state. by simplify_map_eq. Qed.

(** What the loop leaves as candidate is one of the dates, the last one
    whose forwarding did not fail. *)
Lemma process_loop_candidate env dates d :
  last_success_date (process_loop env dates) = Some d ↔
  last (filter (λ d, forwarding_fails env d = false) dates) = Some d.
Proof.
  unfold process_loop. rewrite loop_last_success. simpl.
  by destruct (last _).
Qed.

Lemma process_loop_sent env dates b :
  b ∈ sent (process_loop env dates) → _validate_stix_bundle b = true.
Proof.
  intros [Hb|?]%loop_sent; [|done]. by apply elem_of_nil in Hb.
Qed.

(** The counters of a pass. *)
Lemma pass_counts self env state dates p :
  _compute_date_range self env state = Ok dates →
  _process_dates self env state = Ok p →
  total p = length dates
  ∧ skip_count (vars p)
    = length (filter (λ d, counted_skipped env d = true) dates)
  ∧ error_count (vars p)
    = length (filter (λ d, counted_error env d = true) dates)
  ∧ success_count (vars p)
    = length (filter (λ d, counted_imported env d = true) dates).
Proof.
  intros Hdates. rewrite (process_dates_Ok _ _ _ _ Hdates). intros [= <-].
  split; [done|]. apply (loop_counts env dates initial_vars).
Qed.

(** C3: a pass in which no date was imported makes no call to
    [helper.set_state]: the state store holds after the pass exactly what
    it held before, and so the next pass computes its date range from the
    same state. *)
Theorem no_import_keeps_watermark self env state :
  imported self env state = 0%nat →
  run_pass self env state = state
  ∧ (∀ p, _process_dates self env state = Ok p → set_state p = None)
  ∧ ∀ env',
      _compute_date_range self env' (run_pass self env state)
      = _compute_date_range self env' state.
Proof.
  intros Hzero.
  assert (∀ p, _process_dates self env state = Ok p → set_state p = None)
    as Hnone.
  { intros p Hp. unfold imported in Hzero. rewrite Hp in Hzero.
    destruct (process_dates_inv _ _ _ _ Hp) as (dates & _ & Hvars & ->).
    destruct (update_state env (process_loop env dates)) as [new|] eqn:Hnew;
      [|done].
    apply update_state_Some in Hnew as [Hsuccess _].
    rewrite <- Hvars in Hsuccess. lia. }
  assert (run_pass self env state = state) as Hstate.
  { unfold run_pass.
    destruct (_process_dates self env state) as [p|] eqn:Hp; [|done].
    by rewrite (Hnone p). }
  by rewrite Hstate.
Qed.

Lemma no_import_keeps_watermark_witness :
  imported (Scenario.connector 2) Scenario.nothing_published
           (Scenario.state_of (PyStr "2024-03-07")) = 0%nat
  ∧ run_pass (Scenario.connector 2) Scenario.nothing_published
             (Scenario.state_of (PyStr "2024-03-07"))
    = Scenario.state_of (PyStr "2024-03-07").
Proof.
  split; [vm_compute; reflexivity|].
  apply (no_import_keeps_watermark (Scenario.connector 2)
           Scenario.nothing_published (Scenario.state_of (PyStr "2024-03-07"))).
  vm_compute; reflexivity.
Defined.

(** C7: a payload without an ["objects"] field, with an ["objects"] field
    that is not a list, or with a ["type"] other than the string
    ["bundle"] is never handed to [helper.send_stix2_bundle]. *)
Theorem invalid_payload_never_sent self env state p payload :
  _process_dates self env state = Ok p →
  field payload "objects" = None
  ∨ (∀ items, field payload "objects" ≠ Some (PyList items))
  ∨ field payload "type" ≠ Some (PyStr "bundle") →
  payload ∉ sent (vars p).
Proof.
  intros (dates & _ & -> & _)%process_dates_inv Hinvalid Hsent.
  apply process_loop_sent, validate_true in Hsent as [Htype [items Hobjects]].
  destruct Hinvalid as [Hmissing|[Hnolist|Hnotype]];
    [congruence|by eapply Hnolist|done].
Qed.

Lemma invalid_payload_never_sent_witness :
  _process_dates (Scenario.connector 2) Scenario.section8 None
  = Ok Scenario.section8_pass
  ∧ PyDict {[ "type" := PyStr "bundle" ]} ∉ sent (vars Scenario.section8_pass).
Proof.
  split; [vm_compute; reflexivity|].
  apply (invalid_payload_never_sent (Scenario.connector 2) Scenario.section8
           None Scenario.section8_pass (PyDict {[ "type" := PyStr "bundle" ]})).
  - vm_compute; reflexivity.
  - left. vm_compute; reflexivity.
Defined.

(** C4: a pass that reads a watermark parsing to the datetime [D] and
    persists a new one persists the isoformat of one of the dates it
    processed; every processed date lies from the day after [D] to today,
    so the persisted day is strictly after [D]'s. *)
Theorem watermark_never_moves_backward self env st s D p new :
  st !! "last_processed_date" = Some (PyStr s) →
  fromisoformat env s = Some D →
  _process_dates self env (Some st) = Ok p →
  set_state p = Some new →
  ∃ dates D',
    _compute_date_range self env (Some st) = Ok dates
    ∧ new !! "last_processed_date" = Some (PyStr (isoformat D'))
    ∧ run_pass self env (Some st) = Some new
    ∧ D' ∈ dates
    ∧ toordinal D < toordinal D'
    ∧ ∀ d, d ∈ dates →
           toordinal D + 1 ≤ toordinal d ≤ toordinal (today env).
Proof.
  intros Hst Hs Hp Hnew.
  destruct (process_dates_inv _ _ _ _ Hp) as (dates & Hdates & _ & Hset).
  rewrite Hnew in Hset. symmetry in Hset.
  apply update_state_Some in Hset as (_ & D' & HD' & ->).
  apply process_loop_candidate, last_Some_elem_of, list_elem_of_filter in HD'
    as [_ HD'].
  destruct (range_shape _ _ _ _ Hdates) as (t & c & n & _ & Hhi & Hlo).
  specialize (Hlo D). rewrite (read_present _ _ _ Hst) in Hlo.
  specialize (Hlo Hs).
  exists dates, D'. split; [done|]. split; [apply new_state_watermark|].
  split; [unfold run_pass; by rewrite Hp, Hnew|]. split; [done|].
  split; [specialize (Hlo D' HD'); lia|].
  intros d Hd. split; [by apply Hlo|by apply Hhi].
Qed.

Lemma watermark_never_moves_backward_witness :
  ∃ dates D',
    _compute_date_range (Scenario.connector 2) Scenario.section8
      (Scenario.state_of (PyStr "2024-03-07")) = Ok dates
    ∧ new_state Scenario.section8 (utc_date 2024 3 10) !! "last_processed_date"
      = Some (PyStr (isoformat D'))
    ∧ run_pass (Scenario.connector 2) Scenario.section8
        (Scenario.state_of (PyStr "2024-03-07"))
      = Some (new_state Scenario.section8 (utc_date 2024 3 10))
    ∧ D' ∈ dates
    ∧ toordinal (utc_date 2024 3 7) < toordinal D'
    ∧ ∀ d, d ∈ dates →
           toordinal (utc_date 2024 3 7) + 1 ≤ toordinal d
           ≤ toordinal (today Scenario.section8).
Proof.
  apply (watermark_never_moves_backward (Scenario.connector 2)
           Scenario.section8
           {[ "last_processed_date" := PyStr "2024-03-07";
              "last_run" := PyStr "2024-03-07T12:01:00+00:00" ]}
           "2024-03-07" (utc_date 2024 3 7) Scenario.section8_pass
           (new_state Scenario.section8 (utc_date 2024 3 10)));
    vm_compute; reflexivity.
Defined.

(** C8: a state whose ["last_processed_date"] is not a string, or is a
    string [fromisoformat] rejects, gives the date range, and so the pass,
    that no state at all gives: the backfill from today minus
    [lookback_days], which is returned whenever its first day is a date. *)
Theorem malformed_watermark_is_no_watermark self env st v :
  st !! "last_processed_date" = Some v →
  (∀ s, v = PyStr s → fromisoformat env s = None) →
  _compute_date_range self env (Some st) = _compute_date_range self env None
  ∧ _process_dates self env (Some st) = _process_dates self env None
  ∧ (Calendar.MINORDINAL ≤ toordinal (today env) - lookback_days self
       ≤ Calendar.MAXORDINAL →
     toordinal (today env) < Calendar.MAXORDINAL →
     _compute_date_range self env (Some st)
     = Ok (midnight <$> seqZ (toordinal (today env) - lookback_days self)
                             (lookback_days self + 1))).
Proof.
  intros Hv Hbad.
  assert (read_last_processed env (Some st) = None) as Hread.
  { rewrite (read_present _ _ _ Hv). destruct v; try done. by apply Hbad. }
  assert (_compute_date_range self env (Some st)
          = _compute_date_range self env None) as Hsame.
  { unfold _compute_date_range. by rewrite Hread. }
  split; [done|]. split.
  - unfold _process_dates. by rewrite Hsame.
  - intros Hstart Hclock. by apply backfill_range.
Qed.

Lemma malformed_watermark_is_no_watermark_witness :
  _compute_date_range (Scenario.connector 2) Scenario.section8
    (Scenario.state_of (PyStr "yesterday"))
  = _compute_date_range (Scenario.connector 2) Scenario.section8 None
  ∧ _compute_date_range (Scenario.connector 2) Scenario.section8
      (Scenario.state_of (PyStr "yesterday"))
    = Ok [utc_date 2024 3 8; utc_date 2024 3 9; utc_date 2024 3 10].
Proof.
  destruct (malformed_watermark_is_no_watermark (Scenario.connector 2)
              Scenario.section8
              {[ "last_processed_date" := PyStr "yesterday";
                 "last_run" := PyStr "2024-03-07T12:01:00+00:00" ]}
              (PyStr "yesterday")) as (Hsame & _ & Hrange).
  - vm_compute; reflexivity.
  - intros s [= <-]. vm_compute; reflexivity.
  - split; [exact Hsame|].
    unfold Scenario.state_of. rewrite Hrange; [reflexivity| |]; vm_compute.
    + split; discriminate.
    + reflexivity.
Defined.

(** C5, as it stands, fails: a lookback that reaches before 0001-01-01
    makes [today - timedelta(days=lookback_days)] raise [OverflowError],
    and no list is returned. *)
Lemma backfill_overflow_counterexample :
  watermark_absent None
  ∧ 0 ≤ lookback_days (Scenario.connector 800000)
  ∧ ¬ backfills (Scenario.connector 800000) Scenario.all_fine None.
Proof.
  split; [done|]. split; [done|].
  intros (dates & Hdates & _). vm_compute in Hdates. discriminate.
Qed.

(** C5, amended: without a watermark and with a lookback [L >= 0] whose
    first day, today minus [L], is a date ([L] less than today's
    ordinal), on a clock before 9999-12-31, the range has exactly [L + 1]
    entries, each the day after the one before, the last one today at
    midnight UTC; with [L = 0] it is today alone. *)
Theorem backfill_has_lookback_plus_one_dates self env state :
  watermark_absent state →
  0 ≤ lookback_days self →
  Calendar.MINORDINAL ≤ toordinal (today env) - lookback_days self →
  toordinal (today env) < Calendar.MAXORDINAL →
  backfills self env state
  ∧ _compute_date_range self env state
    = Ok (midnight <$> seqZ (toordinal (today env) - lookback_days self)
                            (lookback_days self + 1))
  ∧ (lookback_days self = 0 →
     _compute_date_range self env state = Ok [today env]).
Proof.
  intros Habsent HL Hstart Hclock.
  pose proof (backfill_range self env state (read_absent _ _ Habsent)
                ltac:(lia) Hclock) as Hrange.
  split; [|split; [done|]].
  - eexists. split; [exact Hrange|]. change midnight with (on_day 0).
    split; [by rewrite days_length|]. split; [|apply days_contiguous].
    rewrite days_last by lia.
    unfold today, replace_midnight, midnight, on_day. simpl.
  do 2 f_equal. lia.
  - intros HL0. rewrite Hrange, HL0, Z.sub_0_r. reflexivity.
Qed.

Lemma backfill_has_lookback_plus_one_dates_witness :
  backfills (Scenario.connector 2) Scenario.section8 None
  ∧ _compute_date_range (Scenario.connector 2) Scenario.section8 None
    = Ok [utc_date 2024 3 8; utc_date 2024 3 9; utc_date 2024 3 10].
Proof.
  destruct (backfill_has_lookback_plus_one_dates (Scenario.connector 2)
              Scenario.section8 None) as (Hfill & Hrange & _).
  - exact I.
  - vm_compute; discriminate.
  - vm_compute; discriminate.
  - vm_compute; reflexivity.
  - split; [exact Hfill|]. rewrite Hrange. vm_compute; reflexivity.
Defined.

(** C6, as it stands, fails: for a watermark of 9999-12-31 the day after
    is not a date, [last_processed + timedelta(days=1)] raises
    [OverflowError], and no list, empty or not, is returned. *)
Lemma resume_overflow_counterexample :
  fromisoformat Scenario.all_fine "9999-12-31"
  = Some (midnight Calendar.MAXORDINAL)
  ∧ ¬ resumes_after (Scenario.connector 2) Scenario.all_fine
        (Scenario.state_of (PyStr "9999-12-31")) Calendar.MAXORDINAL.
Proof.
  split; [vm_compute; reflexivity|].
  intros (dates & Hdates & _). vm_compute in Hdates. discriminate.
Qed.

(** C6, amended: for a watermark that parses to midnight of a day [D]
    before 9999-12-31, on a clock before 9999-12-31: if [D] is before
    today the range is exactly the days [D + 1] to today, each the day
    after the one before and none twice; otherwise it is empty. *)
Theorem resume_is_day_after_watermark_to_today self env st s D :
  st !! "last_processed_date" = Some (PyStr s) →
  fromisoformat env s = Some (midnight D) →
  Calendar.MINORDINAL ≤ D < Calendar.MAXORDINAL →
  toordinal (today env) < Calendar.MAXORDINAL →
  resumes_after self env (Some st) D.
Proof.
  intros Hst Hs HD Hclock.
  assert (read_last_processed env (Some st) = Some (midnight D)) as Hread
    by (by rewrite (read_present _ _ _ Hst)).
  eexists. split; [apply (resume_range self env (Some st) D); [done|lia|done]|].
  case_decide as Hbefore; [|by rewrite seqZ_nil by lia].
  split; [done|]. change midnight with (on_day 0).
  split; [by rewrite seqZ_cons by lia|].
  split; [|split; [apply days_contiguous|apply days_NoDup]].
  rewrite days_last by lia.
  unfold today, replace_midnight, midnight, on_day. simpl.
  do 2 f_equal. lia.
Qed.

Lemma resume_is_day_after_watermark_to_today_witness :
  resumes_after (Scenario.connector 2) Scenario.section8
    (Scenario.state_of (PyStr "2024-03-07")) (Calendar.ymd2ord 2024 3 7)
  ∧ resumes_after (Scenario.connector 2) Scenario.section8
      (Scenario.state_of (PyStr "2024-03-10T00:00:00+00:00"))
      (Calendar.ymd2ord 2024 3 10).
Proof.
  split.
  - apply (resume_is_day_after_watermark_to_today (Scenario.connector 2)
             Scenario.section8 _ "2024-03-07" (Calendar.ymd2ord 2024 3 7)).
    + vm_compute; reflexivity.
    + vm_compute; reflexivity.
    + vm_compute. split; [discriminate|reflexivity].
    + vm_compute; reflexivity.
  - apply (resume_is_day_after_watermark_to_today (Scenario.connector 2)
             Scenario.section8 _ "2024-03-10T00:00:00+00:00"
             (Calendar.ymd2ord 2024 3 10)).
    + vm_compute; reflexivity.
    + vm_compute; reflexivity.
    + vm_compute. split; [discriminate|reflexivity].
    + vm_compute; reflexivity.
Defined.

(** C9, as it stands, fails: when the only date of a pass answers 404
    nothing is imported, no state is persisted, and the date is in no
    watermark. *)
Lemma not_found_only_counterexample :
  ∃ d,
    _compute_date_range (Scenario.connector 0) Scenario.nothing_published None
    = Ok [d]
    ∧ requests_get Scenario.nothing_published d = Response 404 None
    ∧ ¬ covered (run_pass (Scenario.connector 0) Scenario.nothing_published
                   None) d.
Proof.
  exists (utc_date 2024 3 10). split; [vm_compute; reflexivity|].
  split; [reflexivity|].
  intros (st & w & Hstore & _). vm_compute in Hstore. discriminate.
Qed.

(** C9, amended: a date that answers 404 is counted as skipped, not as an
    error, nothing is sent for it, and it becomes the watermark candidate;
    the watermark the pass persists covers it whenever the pass persists
    one, that is, whenever at least one date of the pass was imported. *)
Theorem not_found_is_soft_skip self env state dates d json vars0 :
  _compute_date_range self env state = Ok dates →
  d ∈ dates →
  requests_get env d = Response 404 json →
  visit env vars0 d
  = mk_loop_vars (success_count vars0) (S (skip_count vars0))
                 (error_count vars0) (Some d) (sent vars0)
  ∧ counted_skipped env d = true
  ∧ counted_error env d = false
  ∧ counted_imported env d = false
  ∧ ((1 ≤ imported self env state)%nat →
     covered (run_pass self env state) d).
Proof.
  intros Hdates Hd H404.
  assert (_download_report (requests_get env d) = PyNone) as Hnone
    by (by rewrite H404).
  split; [by apply visit_skip|].
  unfold counted_skipped, counted_error, counted_imported. rewrite Hnone.
  do 3 (split; [done|]).
  unfold imported, run_pass. rewrite (process_dates_Ok _ _ _ _ Hdates).
  cbn [vars set_state]. intros Hsuccess.
  destruct (range_shape _ _ _ _ Hdates) as (t & c & n & -> & _).
  destruct (loop_covers env t c n d Hd) as (w & Hw & Hle).
  { unfold forwarding_fails. by rewrite Hnone. }
  unfold update_state. rewrite Hw, bool_decide_eq_true_2 by done.
  exists (new_state env w), w. by rewrite new_state_watermark.
Qed.

Lemma not_found_is_soft_skip_witness :
  visit Scenario.section8 initial_vars (utc_date 2024 3 8)
  = mk_loop_vars 0 1 0 (Some (utc_date 2024 3 8)) []
  ∧ covered (run_pass (Scenario.connector 2) Scenario.section8 None)
            (utc_date 2024 3 8).
Proof.
  destruct (not_found_is_soft_skip (Scenario.connector 2) Scenario.section8
              None [utc_date 2024 3 8; utc_date 2024 3 9; utc_date 2024 3 10]
              (utc_date 2024 3 8) None initial_vars)
    as (Hvisit & _ & _ & _ & Hcovered).
  - vm_compute; reflexivity.
  - apply list_elem_of_here.
  - reflexivity.
  - split; [exact Hvisit|]. apply Hcovered. vm_compute. apply le_n.
Defined.

(** C10, as it stands, fails: a body that is the JSON [null] parses, is
    not a mapping, and is taken for a failed download: the date is counted
    as skipped and the error counter does not move. *)
Lemma null_body_counterexample :
  fetch_delivers (requests_get Scenario.null_body (utc_date 2024 3 10)) PyNone
  ∧ isinstance_dict PyNone = false
  ∧ visit Scenario.null_body initial_vars (utc_date 2024 3 10)
    = mk_loop_vars 0 1 0 (Some (utc_date 2024 3 10)) []
  ∧ error_count (visit Scenario.null_body initial_vars (utc_date 2024 3 10))
    ≠ S (error_count initial_vars).
Proof.
  split; [|by vm_compute].
  exists 200. split; [reflexivity|]. split; [discriminate|reflexivity].
Qed.

(** C10, amended: a body that parses to a value that is not a mapping
    fails validation and is never sent; when the value is not [null] the
    date is counted as an error, and when it is [null] the date is counted
    as skipped; either way the date becomes the watermark candidate. *)
Theorem non_mapping_payload_never_sent env vars0 d v :
  fetch_delivers (requests_get env d) v →
  isinstance_dict v = false →
  _validate_stix_bundle v = false
  ∧ sent (visit env vars0 d) = sent vars0
  ∧ counted_imported env d = false
  ∧ (v ≠ PyNone →
     counted_error env d = true
     ∧ visit env vars0 d
       = mk_loop_vars (success_count vars0) (skip_count vars0)
                      (S (error_count vars0)) (Some d) (sent vars0))
  ∧ (v = PyNone →
     counted_skipped env d = true
     ∧ counted_error env d = false
     ∧ visit env vars0 d
       = mk_loop_vars (success_count vars0) (S (skip_count vars0))
                      (error_count vars0) (Some d) (sent vars0))
  ∧ ∀ self state p,
      _process_dates self env state = Ok p → v ∉ sent (vars p).
Proof.
  intros Hv%download_delivers Hnodict.
  assert (_validate_stix_bundle v = false) as Hinvalid.
  { unfold _validate_stix_bundle. by rewrite Hnodict. }
  assert (v ≠ PyNone →
          visit env vars0 d
          = mk_loop_vars (success_count vars0) (skip_count vars0)
              (S (error_count vars0)) (Some d) (sent vars0)) as Herror.
  { intros Hnotnone. apply visit_invalid; by rewrite Hv. }
  assert (v = PyNone →
          visit env vars0 d
          = mk_loop_vars (success_count vars0) (S (skip_count vars0))
              (error_count vars0) (Some d) (sent vars0)) as Hskip.
  { intros Hnull. apply visit_skip. by rewrite Hv. }
  split; [done|]. split; [|split; [|split; [|split]]].
  - destruct v; first [by rewrite Hskip|by rewrite Herror|done].
  - unfold counted_imported. cbv zeta. rewrite Hv, Hinvalid.
    by destruct (is_none v).
  - intros Hnotnone. split; [|by apply Herror].
    unfold counted_error. cbv zeta. rewrite Hv, Hinvalid. by destruct v.
  - intros Hnull. split; [|split; [|by apply Hskip]].
    + unfold counted_skipped. by rewrite Hv, Hnull.
    + unfold counted_error. cbv zeta. by rewrite Hv, Hnull.
  - intros self state p (dates & _ & -> & _)%process_dates_inv
      Hsent%process_loop_sent. congruence.
Qed.

Lemma non_mapping_payload_never_sent_witness :
  _validate_stix_bundle (PyList []) = false
  ∧ visit Scenario.list_body initial_vars (utc_date 2024 3 10)
    = mk_loop_vars 0 0 1 (Some (utc_date 2024 3 10)) [].
Proof.
  destruct (non_mapping_payload_never_sent Scenario.list_body initial_vars
              (utc_date 2024 3 10) (PyList []))
    as (Hinvalid & _ & _ & Herror & _).
  - exists 200. split; [reflexivity|]. split; [discriminate|reflexivity].
  - reflexivity.
  - split; [exact Hinvalid|]. apply Herror. discriminate.
Defined.

(** C1, as it stands, fails: in the scenario of section 8 the date whose
    request fails is counted as skipped, the error counter stays at zero,
    and the summary is not the one claimed. *)
Lemma transport_error_counterexample :
  _process_dates (Scenario.connector 2) Scenario.section8 None
  = Ok Scenario.section8_pass
  ∧ fetch_fails (requests_get Scenario.section8 (utc_date 2024 3 10))
  ∧ error_count (vars Scenario.section8_pass) = 0%nat
  ∧ skip_count (vars Scenario.section8_pass) = 2%nat
  ∧ to_processed Scenario.section8_pass
    ≠ Some (message (mk_loop_vars 1 1 1 (Some (utc_date 2024 3 10)) []) 3)
  ∧ message (mk_loop_vars 1 1 1 (Some (utc_date 2024 3 10)) []) 3
    = "VigilIntel run complete — 1 imported, 1 skipped, 1 errors (out of 3 dates)".
Proof.
  split; [vm_compute; reflexivity|]. split; [exact I|].
  split; [reflexivity|]. split; [reflexivity|].
  split; [vm_compute; discriminate|vm_compute; reflexivity].
Qed.

(** C1, amended: a date of a pass whose fetch fails (the request raises,
    the status is an error status other than 404, or the body is not
    JSON) is counted in the pass's skipped counter, not in its error
    counter, and becomes the watermark candidate; in the scenario of
    section 8 the dates are 2024-03-08 to 2024-03-10, the summary reads
    "1 imported, 2 skipped, 0 errors (out of 3 dates)" and the watermark
    persisted is 2024-03-10. *)
Theorem failed_fetch_counts_as_skipped self env state dates p d :
  _compute_date_range self env state = Ok dates →
  _process_dates self env state = Ok p →
  d ∈ dates →
  fetch_fails (requests_get env d) →
  (counted_skipped env d = true
   ∧ counted_error env d = false
   ∧ skip_count (vars p)
     = length (filter (λ d, counted_skipped env d = true) dates)
   ∧ error_count (vars p)
     = length (filter (λ d, counted_error env d = true) dates)
   ∧ ∀ vars0,
       visit env vars0 d
       = mk_loop_vars (success_count vars0) (S (skip_count vars0))
                      (error_count vars0) (Some d) (sent vars0))
  ∧ _compute_date_range (Scenario.connector 2) Scenario.section8 None
    = Ok [utc_date 2024 3 8; utc_date 2024 3 9; utc_date 2024 3 10]
  ∧ (∃ p8,
       _process_dates (Scenario.connector 2) Scenario.section8 None = Ok p8
       ∧ to_processed p8
         = Some "VigilIntel run complete — 1 imported, 2 skipped, 0 errors (out of 3 dates)"
       ∧ set_state p8
         = Some (new_state Scenario.section8 (utc_date 2024 3 10)))
  ∧ new_state Scenario.section8 (utc_date 2024 3 10) !! "last_processed_date"
    = Some (PyStr "2024-03-10T00:00:00+00:00").
Proof.
  intros Hdates Hp Hd Hfails%download_fails.
  destruct (pass_counts _ _ _ _ _ Hdates Hp) as (_ & Hskip & Herror & _).
  split.
  { unfold counted_skipped, counted_error. rewrite Hfails.
    repeat split; try done. intros vars0. by apply visit_skip. }
  split; [vm_compute; reflexivity|]. split; [|vm_compute; reflexivity].
  exists Scenario.section8_pass. split; [vm_compute; reflexivity|].
  split; reflexivity.
Qed.

Lemma failed_fetch_counts_as_skipped_witness :
  fetch_fails (requests_get Scenario.section8 (utc_date 2024 3 10))
  ∧ counted_skipped Scenario.section8 (utc_date 2024 3 10) = true
  ∧ counted_error Scenario.section8 (utc_date 2024 3 10) = false
  ∧ skip_count (vars Scenario.section8_pass)
    = length (filter (λ d, counted_skipped Scenario.section8 d = true)
                [utc_date 2024 3 8; utc_date 2024 3 9; utc_date 2024 3 10]).
Proof.
  split; [exact I|].
  destruct (failed_fetch_counts_as_skipped (Scenario.connector 2)
              Scenario.section8 None
              [utc_date 2024 3 8; utc_date 2024 3 9; utc_date 2024 3 10]
              Scenario.section8_pass (utc_date 2024 3 10))
    as ((Hskipped & Hnoerror & Hcount & _) & _).
  - vm_compute; reflexivity.
  - vm_compute; reflexivity.
  - apply list_elem_of_further, list_elem_of_further, list_elem_of_here.
  - exact I.
  - split; [exact Hskipped|]. split; [exact Hnoerror|exact Hcount].
Defined.

(** C2, as it stands, fails: when the sink refuses the bundle of the last
    date of a pass that imported others, the watermark persisted is not
    that last date. *)
Lemma sink_refusal_counterexample :
  _compute_date_range (Scenario.connector 2) Scenario.sink_down_on_last None
  = Ok [utc_date 2024 3 8; utc_date 2024 3 9; utc_date 2024 3 10]
  ∧ _process_dates (Scenario.connector 2) Scenario.sink_down_on_last None
    = Ok Scenario.sink_down_pass
  ∧ (1 ≤ success_count (vars Scenario.sink_down_pass))%nat
  ∧ set_state Scenario.sink_down_pass
    = Some (new_state Scenario.sink_down_on_last (utc_date 2024 3 9))
  ∧ set_state Scenario.sink_down_pass
    ≠ Some (new_state Scenario.sink_down_on_last (utc_date 2024 3 10)).
Proof.
  split; [vm_compute; reflexivity|]. split; [vm_compute; reflexivity|].
  split; [vm_compute; lia|]. split; [reflexivity|].
  intros Hsame.
  assert (new_state Scenario.sink_down_on_last (utc_date 2024 3 9)
          = new_state Scenario.sink_down_on_last (utc_date 2024 3 10))
    as Hstates by (by injection Hsame).
  apply (f_equal (λ st : gmap string pyvalue, st !! "last_processed_date"))
    in Hstates.
  rewrite !new_state_watermark in Hstates. vm_compute in Hstates.
  discriminate.
Qed.

(** C2, amended: a pass in which at least one date was imported persists
    as watermark the last date visited whose forwarding to the sink did
    not fail: a date the host has nothing for, a date whose payload fails
    validation and a date imported all advance the candidate, a date
    whose forwarding fails leaves it where it was. So the watermark is the
    last date visited unless the forwarding of that date failed. *)
Theorem watermark_is_last_date_not_refused self env state p :
  _process_dates self env state = Ok p →
  (1 ≤ success_count (vars p))%nat →
  ∃ dates d,
    _compute_date_range self env state = Ok dates
    ∧ last (filter (λ d, forwarding_fails env d = false) dates) = Some d
    ∧ set_state p = Some (new_state env d)
    ∧ run_pass self env state = Some (new_state env d)
    ∧ ∀ d', last dates = Some d' → forwarding_fails env d' = false → d = d'.
Proof.
  intros Hp Hsuccess.
  destruct (process_dates_inv _ _ _ _ Hp) as (dates & Hdates & Hvars & Hset).
  rewrite Hvars in Hsuccess.
  destruct (loop_candidate env dates initial_vars) as [d Hd];
    [simpl; lia|done|].
  assert (set_state p = Some (new_state env d)) as Hnew.
  { rewrite Hset. unfold update_state, process_loop.
    by rewrite Hd, bool_decide_eq_true_2. }
  exists dates, d. split; [done|].
  split; [by apply process_loop_candidate|]. split; [done|].
  split; [unfold run_pass; by rewrite Hp, Hnew|].
  intros d' Hlast Hok.
  apply process_loop_candidate in Hd.
  destruct dates as [|d0 dates _] using rev_ind; [done|].
  rewrite last_snoc in Hlast. injection Hlast as ->.
  rewrite filter_app, filter_cons, filter_nil, decide_True in Hd by done.
  rewrite last_snoc in Hd. by injection Hd.
Qed.

Lemma watermark_is_last_date_not_refused_witness :
  ∃ dates d,
    _compute_date_range (Scenario.connector 2) Scenario.sink_down_on_last None
    = Ok dates
    ∧ last (filter (λ d, forwarding_fails Scenario.sink_down_on_last d = false)
              dates) = Some d
    ∧ set_state Scenario.sink_down_pass
      = Some (new_state Scenario.sink_down_on_last d)
    ∧ run_pass (Scenario.connector 2) Scenario.sink_down_on_last None
      = Some (new_state Scenario.sink_down_on_last d)
    ∧ ∀ d', last dates = Some d' →
            forwarding_fails Scenario.sink_down_on_last d' = false → d = d'.
Proof.
  apply (watermark_is_last_date_not_refused (Scenario.connector 2)
           Scenario.sink_down_on_last None Scenario.sink_down_pass).
  - vm_compute; reflexivity.
  - vm_compute. apply le_S, le_n.
Defined.

(** * Further properties of the loop, the range and [run] *)

Lemma loop_total env dates : ∀ vars,
  let vars' := foldl (visit env) vars dates in
  (success_count vars' + skip_count vars' + error_count vars'
   = success_count vars + skip_count vars + error_count vars
     + length dates)%nat.
Proof.
  induction dates as [|d dates IH]; intros vars; simpl; [lia|].
  specialize (IH (visit env vars d)). simpl in IH. rewrite IH.
  unfold visit. destruct (is_none _); simpl; [lia|].
  destruct (_validate_stix_bundle _); simpl; [|lia].
  destruct (_send_to_opencti _ _ _); simpl; lia.
Qed.

Lemma loop_forwarded env dates : ∀ vars,
  sent (foldl (visit env) vars dates)
  = (sent vars ++ omap (forwarded env) dates)%list.
Proof.
  induction dates as [|d dates IH]; intros vars; simpl;
    [by rewrite app_nil_r|].
  rewrite IH. unfold visit, forwarded.
  destruct (is_none _); simpl; [done|].
  destruct (_validate_stix_bundle _); simpl; [|done].
  destruct (_send_to_opencti _ _ _); simpl; by rewrite <- app_assoc.
Qed.

(** X1: every date of a pass is counted exactly once: the imported, skipped
    and error counters add up to the number of dates of the range, and the
    summary handed to [to_processed] (when there is a date at all) reports
    these four numbers. *)
Theorem every_date_is_counted_once self env state dates p :
  _compute_date_range self env state = Ok dates →
  _process_dates self env state = Ok p →
  (success_count (vars p) + skip_count (vars p) + error_count (vars p)
   = length dates)%nat
  ∧ total p = length dates
  ∧ to_processed p
    = match dates with
      | [] => None
      | _ => Some ("VigilIntel run complete — "
                   ++ summary (success_count (vars p)) (skip_count (vars p))
                              (error_count (vars p)) (length dates))
      end.
Proof.
  intros Hdates. rewrite (process_dates_Ok _ _ _ _ Hdates). intros [= <-].
  cbn [vars total to_processed]. split; [|done].
  apply (loop_total env dates initial_vars).
Qed.

Lemma every_date_is_counted_once_witness :
  (success_count (vars Scenario.sink_down_pass)
   + skip_count (vars Scenario.sink_down_pass)
   + error_count (vars Scenario.sink_down_pass) = 3)%nat.
Proof.
  apply (every_date_is_counted_once (Scenario.connector 2)
           Scenario.sink_down_on_last None
           [utc_date 2024 3 8; utc_date 2024 3 9; utc_date 2024 3 10]
           Scenario.sink_down_pass); vm_compute; reflexivity.
Defined.

Lemma forwarded_count env dates :
  length (omap (forwarded env) dates)
  = (length (filter (λ d, counted_imported env d = true) dates)
     + length (filter (λ d, forwarding_fails env d = true) dates))%nat.
Proof.
  induction dates as [|d dates IH]; [done|].
  rewrite !filter_cons.
  change (omap (forwarded env) (d :: dates))
    with (match forwarded env d with
          | Some b => b :: omap (forwarded env) dates
          | None => omap (forwarded env) dates
          end).
  assert (forwarded env d = None ∧ counted_imported env d = false
            ∧ forwarding_fails env d = false
          ∨ is_Some (forwarded env d)
            ∧ (counted_imported env d = true ∧ forwarding_fails env d = false
               ∨ counted_imported env d = false
                 ∧ forwarding_fails env d = true)) as Hd.
  { unfold forwarded, counted_imported, forwarding_fails.
    destruct (is_none _); simpl; [by left|].
    destruct (_validate_stix_bundle _); simpl; [|by left].
    right. split; [by eexists|]. destruct (_send_to_opencti _ _ _); auto. }
  destruct Hd as [(-> & -> & ->)|[[b ->] [[-> ->]|[-> ->]]]];
    repeat case_decide; try done; simpl; lia.
Qed.

(** X2: the bundles a pass hands to the sink are exactly the downloads
    that are not [None] and pass validation, one for each such date, in
    the order of the dates; their number is the number of imports plus
    the number of dates whose forwarding failed. *)
Theorem sink_gets_each_valid_bundle_once self env state dates p :
  _compute_date_range self env state = Ok dates →
  _process_dates self env state = Ok p →
  sent (vars p) = omap (forwarded env) dates
  ∧ length (sent (vars p))
    = (success_count (vars p)
       + length (filter (λ d, forwarding_fails env d = true) dates))%nat.
Proof.
  intros Hdates. rewrite (process_dates_Ok _ _ _ _ Hdates). intros [= <-].
  cbn [vars]. unfold process_loop.
  pose proof (loop_forwarded env dates initial_vars) as Hsent.
  simpl in Hsent. split; [done|]. rewrite Hsent.
  destruct (loop_counts env dates initial_vars) as (_ & _ & ->). simpl.
  apply forwarded_count.
Qed.

Lemma sink_gets_each_valid_bundle_once_witness :
  sent (vars Scenario.section8_pass)
  = omap (forwarded Scenario.section8)
      [utc_date 2024 3 8; utc_date 2024 3 9; utc_date 2024 3 10].
Proof.
  apply (sink_gets_each_valid_bundle_once (Scenario.connector 2)
           Scenario.section8 None
           [utc_date 2024 3 8; utc_date 2024 3 9; utc_date 2024 3 10]
           Scenario.section8_pass); vm_compute; reflexivity.
Defined.

Lemma add_days_inv dt n r :
  add_days dt n = Ok r →
  r = mk_datetime (toordinal dt + n) (time_of_day dt)
  ∧ Calendar.MINORDINAL ≤ toordinal dt + n ≤ Calendar.MAXORDINAL.
Proof.
  unfold add_days.
  destruct (Z.leb_spec Calendar.MINORDINAL (toordinal dt + n));
    destruct (Z.leb_spec (toordinal dt + n) Calendar.MAXORDINAL);
    simpl; [|done..].
  intros [= <-]. split; [done|lia].
Qed.

(** The range, exactly: the days from the start date on, one for each turn
    of the loop, all at the start date's time of day. *)
Lemma range_exact self env state dates :
  _compute_date_range self env state = Ok dates →
  ∃ start,
    dates = on_day (time_of_day start)
              <$> seqZ (toordinal start) (turns (today env) start)
    ∧ Calendar.MINORDINAL ≤ toordinal start ≤ Calendar.MAXORDINAL
    ∧ (0 < turns (today env) start →
       toordinal start + turns (today env) start ≤ Calendar.MAXORDINAL)
    ∧ match read_last_processed env state with
      | Some w => start = mk_datetime (toordinal w + 1) (time_of_day w)
      | None =>
          start = mk_datetime (toordinal (today env) + - lookback_days self) 0
      end.
Proof.
  unfold _compute_date_range. cbv zeta.
  assert (∀ start, date_loop (today env) start [] = Ok dates →
    dates = on_day (time_of_day start)
              <$> seqZ (toordinal start) (turns (today env) start)
    ∧ (0 < turns (today env) start →
       toordinal start + turns (today env) start ≤ Calendar.MAXORDINAL))
    as Hloop.
  { intros start.
    rewrite (date_loop_result (today env) _ start [] eq_refl).
    case_decide as Hover; [done|]. intros [= <-]. split; [done|]. lia. }
  destruct (read_last_processed env state) as [w|].
  - destruct (add_days w 1) as [start|] eqn:Hstart; [|done].
    apply add_days_inv in Hstart as [-> Hrange].
    change (mbind ?f (Ok ?x)) with (f x). cbv beta.
    unfold dt_gt. rewrite dt_le_turns.
    case_bool_decide as Hturns; cbn [negb].
    + intros [-> Hmax]%Hloop.
      exists (mk_datetime (toordinal w + 1) (time_of_day w)).
      split; [done|]. split; [done|]. split; done.
    + intros [= <-].
      exists (mk_datetime (toordinal w + 1) (time_of_day w)).
      split; [by rewrite seqZ_nil by lia|].
      split; [done|]. split; [lia|done].
  - destruct (add_days _ _) as [start|] eqn:Hstart; [|done].
    apply add_days_inv in Hstart as [-> Hrange].
    change (mbind ?f (Ok ?x)) with (f x). cbv beta.
    intros [-> Hmax]%Hloop.
    exists (mk_datetime (toordinal (today env) + - lookback_days self) 0).
    split; [done|]. split; [done|]. split; done.
Qed.

(** X3: what a pass persists is the isoformat of a date of its own range
    whose forwarding did not fail, never a date after today, and on a first
    run never a date before today minus [lookback_days]; the state carries
    the time of the write under ["last_run"]. *)
Theorem persisted_date_is_a_date_of_the_range self env state dates p new :
  _compute_date_range self env state = Ok dates →
  _process_dates self env state = Ok p →
  set_state p = Some new →
  ∃ D',
    new = new_state env D'
    ∧ new !! "last_processed_date" = Some (PyStr (isoformat D'))
    ∧ new !! "last_run" = Some (PyStr (isoformat (utcnow_last_run env)))
    ∧ D' ∈ dates
    ∧ forwarding_fails env D' = false
    ∧ toordinal D' ≤ toordinal (today env)
    ∧ (read_last_processed env state = None →
       toordinal (today env) - lookback_days self ≤ toordinal D'
       ∧ time_of_day D' = 0).
Proof.
  intros Hdates Hp Hnew.
  destruct (process_dates_inv _ _ _ _ Hp) as (dates' & Hdates' & _ & Hset).
  assert (dates' = dates) as -> by congruence.
  rewrite Hnew in Hset. symmetry in Hset.
  apply update_state_Some in Hset as (_ & D' & HD' & ->).
  apply process_loop_candidate, last_Some_elem_of, list_elem_of_filter in HD'
    as [Hok HD'].
  exists D'. split; [done|]. split; [apply new_state_watermark|].
  split; [unfold new_state; by simplify_map_eq|]. split; [done|].
  split; [done|].
  destruct (range_exact _ _ _ _ Hdates) as (start & -> & _ & _ & Hstart).
  apply days_elem_of in HD' as [Htime HD'].
  split.
  - unfold turns in HD'. destruct (_ <=? _) in HD'; lia.
  - intros Hread. rewrite Hread in Hstart. subst start. simpl in *. lia.
Qed.

Lemma persisted_date_is_a_date_of_the_range_witness :
  ∃ D',
    new_state Scenario.sink_down_on_last (utc_date 2024 3 9)
    = new_state Scenario.sink_down_on_last D'
    ∧ new_state Scenario.sink_down_on_last (utc_date 2024 3 9)
        !! "last_processed_date" = Some (PyStr (isoformat D'))
    ∧ new_state Scenario.sink_down_on_last (utc_date 2024 3 9) !! "last_run"
      = Some (PyStr (isoformat (utcnow_last_run Scenario.sink_down_on_last)))
    ∧ D' ∈ [utc_date 2024 3 8; utc_date 2024 3 9; utc_date 2024 3 10]
    ∧ forwarding_fails Scenario.sink_down_on_last D' = false
    ∧ toordinal D' ≤ toordinal (today Scenario.sink_down_on_last)
    ∧ (read_last_processed Scenario.sink_down_on_last None = None →
       toordinal (today Scenario.sink_down_on_last)
       - lookback_days (Scenario.connector 2) ≤ toordinal D'
       ∧ time_of_day D' = 0).
Proof.
  apply (persisted_date_is_a_date_of_the_range (Scenario.connector 2)
           Scenario.sink_down_on_last None
           [utc_date 2024 3 8; utc_date 2024 3 9; utc_date 2024 3 10]
           Scenario.sink_down_pass); vm_compute; reflexivity.
Defined.

(** X4: a date whose forwarding to the sink failed is passed over as soon
    as a later date of the same pass advances the candidate: when the pass
    imported at least one date, the watermark it persists is after the
    failed date, which no later range contains. *)
Theorem refused_date_is_passed_over self env state dates d d' :
  _compute_date_range self env state = Ok dates →
  d ∈ dates → d' ∈ dates →
  toordinal d < toordinal d' →
  forwarding_fails env d = true →
  forwarding_fails env d' = false →
  (1 ≤ imported self env state)%nat →
  ∃ w,
    run_pass self env state = Some (new_state env w)
    ∧ toordinal d < toordinal w
    ∧ forwarded env d ∈ Some <$> sent (process_loop env dates).
Proof.
  intros Hdates Hd Hd' Hlt Hfail Hok.
  unfold imported, run_pass. rewrite (process_dates_Ok _ _ _ _ Hdates).
  cbn [vars set_state]. intros Hsuccess.
  assert (forwarded env d ∈ Some <$> sent (process_loop env dates)) as Hsent.
  { unfold process_loop. rewrite loop_forwarded. simpl.
    unfold forwarding_fails in Hfail.
    destruct (forwarded env d) as [b|] eqn:Hb.
    - apply list_elem_of_fmap. exists b. split; [done|].
      apply list_elem_of_omap. by exists d.
    - unfold forwarded in Hb.
      destruct (negb (is_none _) && _validate_stix_bundle _); done. }
  destruct (range_shape _ _ _ _ Hdates) as (t & c & n & -> & _).
  destruct (loop_covers env t c n d' Hd' Hok) as (w & Hw & Hle).
  unfold update_state. rewrite Hw, bool_decide_eq_true_2 by done.
  exists w. split; [done|]. split; [lia|done].
Qed.

Lemma refused_date_is_passed_over_witness :
  ∃ w,
    run_pass (Scenario.connector 2) Later.sink_down_on_middle None
    = Some (new_state Later.sink_down_on_middle w)
    ∧ toordinal (utc_date 2024 3 9) < toordinal w
    ∧ forwarded Later.sink_down_on_middle (utc_date 2024 3 9)
      ∈ Some <$> sent (process_loop Later.sink_down_on_middle
                         [utc_date 2024 3 8; utc_date 2024 3 9;
                          utc_date 2024 3 10]).
Proof.
  apply (refused_date_is_passed_over (Scenario.connector 2)
           Later.sink_down_on_middle None
           [utc_date 2024 3 8; utc_date 2024 3 9; utc_date 2024 3 10]
           (utc_date 2024 3 9) (utc_date 2024 3 10)).
  - vm_compute; reflexivity.
  - apply list_elem_of_further, list_elem_of_here.
  - apply list_elem_of_further, list_elem_of_further, list_elem_of_here.
  - vm_compute; reflexivity.
  - vm_compute; reflexivity.
  - vm_compute; reflexivity.
  - vm_compute. apply le_S, le_n.
Defined.

Lemma days_after t c (n : nat) o :
  c - 1 ≤ o →
  filter (λ d, o < toordinal d) (on_day t <$> seqZ c (Z.of_nat n))
  = on_day t <$> seqZ (o + 1) (c + Z.of_nat n - o - 1).
Proof.
  intros Ho. induction n as [|n IH].
  - by rewrite !seqZ_nil by lia.
  - rewrite days_snoc, filter_app, IH, filter_cons, filter_nil.
    case_decide as Hlast; simpl in Hlast.
    + replace (c + Z.of_nat (S n) - o - 1)
        with ((c + Z.of_nat n - o - 1) + 1) by lia.
      rewrite seqZ_app by lia. rewrite fmap_app.
      replace (o + 1 + (c + Z.of_nat n - o - 1)) with (c + Z.of_nat n) by lia.
      done.
    + rewrite app_nil_r. by rewrite !seqZ_nil by lia.
Qed.

(** X5: a second pass in the same world, after a pass that persisted a
    watermark which [fromisoformat] reads back, covers exactly the dates of
    the first range after the watermark; the forwarding of each of them
    failed in the first pass, and there is none when the watermark is the
    last date of the first range. *)
Theorem second_pass_retries_the_refused_tail self env state dates p new D' :
  _compute_date_range self env state = Ok dates →
  _process_dates self env state = Ok p →
  set_state p = Some new →
  last_success_date (vars p) = Some D' →
  fromisoformat env (isoformat D') = Some D' →
  _compute_date_range self env (run_pass self env state)
  = Ok (filter (λ d, toordinal D' < toordinal d) dates)
  ∧ (∀ d, d ∈ filter (λ d, toordinal D' < toordinal d) dates →
          forwarding_fails env d = true)
  ∧ (last dates = Some D' →
     _compute_date_range self env (run_pass self env state) = Ok []).
Proof.
  intros Hdates Hp Hnew HD' Hparse.
  destruct (process_dates_inv _ _ _ _ Hp) as (dates' & Hdates' & Hvars & Hset).
  assert (dates' = dates) as -> by congruence.
  rewrite Hnew in Hset. symmetry in Hset.
  apply update_state_Some in Hset as (_ & D'' & HD'' & ->).
  rewrite Hvars in HD'. assert (D'' = D') as -> by congruence. clear HD''.
  assert (run_pass self env state = Some (new_state env D')) as ->
    by (unfold run_pass; by rewrite Hp, Hnew).
  assert (∀ d, d ∈ filter (λ d, toordinal D' < toordinal d) dates →
               forwarding_fails env d = true) as Htail.
  { intros d [Hafter Hd]%list_elem_of_filter.
    destruct (forwarding_fails env d) eqn:Hfail; [done|].
    destruct (range_shape _ _ _ _ Hdates) as (t & c & n & -> & _).
    destruct (loop_covers env t c n d Hd Hfail) as (w & Hw & Hle).
    rewrite HD' in Hw. injection Hw as <-. lia. }
  assert (_compute_date_range self env (Some (new_state env D'))
          = Ok (filter (λ d, toordinal D' < toordinal d) dates)) as Hsecond.
  { apply process_loop_candidate, last_Some_elem_of, list_elem_of_filter in HD'
      as [_ HD'].
    destruct (range_exact _ _ _ _ Hdates)
      as (start & Hrange & Hstart & Hmax & _).
    rewrite Hrange in HD'. apply days_elem_of in HD' as [Htime HD'].
    set (n := turns (today env) start) in *.
    assert (0 < n) as Hn by lia. specialize (Hmax Hn).
    rewrite Hrange. replace n with (Z.of_nat (Z.to_nat n)) at 1 by lia.
    rewrite days_after by lia. rewrite Z2Nat.id by lia.
    unfold _compute_date_range. cbv zeta.
    rewrite (read_present _ _ _ (new_state_watermark env D')), Hparse.
    rewrite add_days_Ok by lia.
    change (mbind ?f (Ok ?x)) with (f x). cbv beta.
    assert (turns (today env)
              (mk_datetime (toordinal D' + 1) (time_of_day D'))
            = toordinal start + n - toordinal D' - 1) as Hturns.
    { subst n. unfold turns. cbn [toordinal time_of_day]. rewrite Htime.
      destruct (_ <=? _); lia. }
    unfold dt_gt. rewrite dt_le_turns, Hturns.
    case_bool_decide as Hmore; cbn [negb].
    - rewrite (date_loop_result (today env) _ _ [] eq_refl), Hturns.
      cbn [toordinal time_of_day]. rewrite decide_False by lia.
      by rewrite Htime.
    - by rewrite seqZ_nil by lia. }
  split; [done|]. split; [done|].
  intros Hlast. rewrite Hsecond. f_equal.
  destruct (range_shape _ _ _ _ Hdates) as (t & c & n & -> & _).
  destruct n as [|n]; [done|].
  rewrite days_snoc, last_snoc in Hlast. injection Hlast as <-.
  cbn [toordinal on_day]. rewrite days_after by lia.
  by rewrite seqZ_nil by lia.
Qed.

Lemma second_pass_retries_the_refused_tail_witness :
  _compute_date_range (Scenario.connector 2) Scenario.sink_down_on_last
    (run_pass (Scenario.connector 2) Scenario.sink_down_on_last None)
  = Ok [utc_date 2024 3 10]
  ∧ forwarding_fails Scenario.sink_down_on_last (utc_date 2024 3 10) = true.
Proof.
  destruct (second_pass_retries_the_refused_tail (Scenario.connector 2)
              Scenario.sink_down_on_last None
              [utc_date 2024 3 8; utc_date 2024 3 9; utc_date 2024 3 10]
              Scenario.sink_down_pass
              (new_state Scenario.sink_down_on_last (utc_date 2024 3 9))
              (utc_date 2024 3 9)) as (Hsecond & Htail & _).
  - vm_compute; reflexivity.
  - vm_compute; reflexivity.
  - reflexivity.
  - reflexivity.
  - vm_compute; reflexivity.
  - split; [rewrite Hsecond; vm_compute; reflexivity|].
    apply Htail. vm_compute. apply list_elem_of_here.
Defined.

(** One turn of [run] keeps a midnight watermark readable and does not
    move it backward. *)
Lemma run_pass_keeps_watermark self env parse st s D D0 Tmax :
  fromisoformat env = parse →
  toordinal (today env) ≤ Tmax →
  (∀ o, D0 < o ≤ Tmax → parse (isoformat (midnight o)) = Some (midnight o)) →
  st !! "last_processed_date" = Some (PyStr s) →
  parse s = Some (midnight D) →
  D0 ≤ D →
  ∃ st' s' D',
    run_pass self env (Some st) = Some st'
    ∧ st' !! "last_processed_date" = Some (PyStr s')
    ∧ parse s' = Some (midnight D')
    ∧ D ≤ D' ∧ (D' = D ∨ D' ≤ Tmax).
Proof.
  intros Hparse Hclock Hback Hst Hs HD.
  assert (∃ st' s' D', Some st = Some st'
            ∧ st' !! "last_processed_date" = Some (PyStr s')
            ∧ parse s' = Some (midnight D')
            ∧ D ≤ D' ∧ (D' = D ∨ D' ≤ Tmax)) as Hsame.
  { exists st, s, D. repeat split; [done..|lia|by left]. }
  unfold run_pass.
  destruct (_process_dates self env (Some st)) as [p|] eqn:Hp; [|done].
  destruct (set_state p) as [new|] eqn:Hnew; [|done].
  destruct (process_dates_inv _ _ _ _ Hp) as (dates & Hdates & _ & Hset).
  rewrite Hnew in Hset. symmetry in Hset.
  apply update_state_Some in Hset as (_ & w & Hw & ->).
  apply process_loop_candidate, last_Some_elem_of, list_elem_of_filter in Hw
    as [_ Hw].
  destruct (range_exact _ _ _ _ Hdates) as (start & -> & _ & _ & Hstart).
  rewrite (read_present _ _ _ Hst), Hparse, Hs in Hstart. subst start.
  apply days_elem_of in Hw as [Htime Hw]. cbn [toordinal time_of_day midnight] in *.
  assert (toordinal w ≤ toordinal (today env)) as Htoday.
  { unfold turns in Hw. cbn [toordinal time_of_day] in Hw.
    destruct (_ <=? _) in Hw; lia. }
  assert (w = midnight (toordinal w)) as Hmid
    by (destruct w; simpl in *; by subst).
  exists (new_state env w), (isoformat w), (toordinal w).
  split; [done|]. split; [apply new_state_watermark|].
  split; [rewrite Hmid at 1; apply Hback; lia|].
  split; [lia|right; lia].
Qed.

(** X6: over any number of turns of [run], a state store that holds a
    readable watermark keeps holding one, and it never moves backward:
    each turn either leaves the state as it is (the pass raised, had
    nothing to do or imported nothing) or writes a later day, not after the
    day of the clock. [fromisoformat] has to read back what [isoformat]
    writes for the days in between. *)
Theorem run_never_moves_watermark_backward self worlds parse st0 s0 D0 Tmax :
  (∀ env, env ∈ worlds →
          fromisoformat env = parse ∧ toordinal (today env) ≤ Tmax) →
  (∀ o, D0 < o ≤ Tmax → parse (isoformat (midnight o)) = Some (midnight o)) →
  st0 !! "last_processed_date" = Some (PyStr s0) →
  parse s0 = Some (midnight D0) →
  ∃ st s D,
    run self worlds (Some st0) = Some st
    ∧ st !! "last_processed_date" = Some (PyStr s)
    ∧ parse s = Some (midnight D)
    ∧ D0 ≤ D ∧ (D = D0 ∨ D ≤ Tmax).
Proof.
  intros Hworlds Hback Hst0 Hs0.
  assert (∀ st s D,
            st !! "last_processed_date" = Some (PyStr s) →
            parse s = Some (midnight D) →
            D0 ≤ D → D = D0 ∨ D ≤ Tmax →
            ∃ st' s' D',
              run self worlds (Some st) = Some st'
              ∧ st' !! "last_processed_date" = Some (PyStr s')
              ∧ parse s' = Some (midnight D')
              ∧ D0 ≤ D' ∧ (D' = D0 ∨ D' ≤ Tmax)) as Hrun.
  { clear Hst0 Hs0. unfold run.
    induction worlds as [|env worlds IH]; intros st s D Hst Hs HD Hmax.
    - by exists st, s, D.
    - destruct (Hworlds env) as [Hparse Hclock]; [apply list_elem_of_here|].
      destruct (run_pass_keeps_watermark self env parse st s D D0 Tmax)
        as (st' & s' & D' & Hturn & Hst' & Hs' & HD' & Hmax'); [done..|].
      simpl. rewrite Hturn.
      apply (IH (λ e He, Hworlds e (list_elem_of_further _ _ _ He)) st' s' D');
        [done|done|lia|].
      destruct Hmax' as [->|?]; [done|by right]. }
  apply (Hrun st0 s0 D0); [done|done|lia|by left].
Qed.

Lemma run_never_moves_watermark_backward_witness :
  ∃ st s D,
    run (Scenario.connector 2)
      [Later.offline_on (Calendar.ymd2ord 2024 3 8);
       Later.fine_on (Calendar.ymd2ord 2024 3 9);
       Later.offline_on (Calendar.ymd2ord 2024 3 10)]
      (Scenario.state_of (PyStr "2024-03-07")) = Some st
    ∧ st !! "last_processed_date" = Some (PyStr s)
    ∧ Scenario.fromisoformat_midnight s = Some (midnight D)
    ∧ Calendar.ymd2ord 2024 3 7 ≤ D
    ∧ (D = Calendar.ymd2ord 2024 3 7 ∨ D ≤ Calendar.ymd2ord 2024 3 10).
Proof.
  apply (run_never_moves_watermark_backward (Scenario.connector 2)
           [Later.offline_on (Calendar.ymd2ord 2024 3 8);
            Later.fine_on (Calendar.ymd2ord 2024 3 9);
            Later.offline_on (Calendar.ymd2ord 2024 3 10)]
           Scenario.fromisoformat_midnight
           {[ "last_processed_date" := PyStr "2024-03-07";
              "last_run" := PyStr "2024-03-07T12:01:00+00:00" ]}
           "2024-03-07" (Calendar.ymd2ord 2024 3 7)
           (Calendar.ymd2ord 2024 3 10)).
  - intros env Henv.
    apply elem_of_cons in Henv as [->|Henv];
      [split; [reflexivity|vm_compute; discriminate]|].
    apply elem_of_cons in Henv as [->|Henv];
      [split; [reflexivity|vm_compute; discriminate]|].
    apply elem_of_cons in Henv as [->|Henv];
      [split; [reflexivity|vm_compute; discriminate]|].
    by apply elem_of_nil in Henv.
  - intros o Ho.
    change (Calendar.ymd2ord 2024 3 7) with 738952 in Ho.
    change (Calendar.ymd2ord 2024 3 10) with 738955 in Ho.
    assert (o = 738953 ∨ o = 738954 ∨ o = 738955) as [->|[->| ->]] by lia;
      vm_compute; reflexivity.
  - vm_compute; reflexivity.
  - vm_compute; reflexivity.
Defined.

(** X7: a negative [lookback_days] on a first run puts the start date
    after today: the loop is not entered, the range is empty, and the pass
    returns before any work is initiated, leaving the state as it is. *)
Theorem negative_lookback_does_nothing self env state :
  watermark_absent state →
  lookback_days self < 0 →
  Calendar.MINORDINAL ≤ toordinal (today env) - lookback_days self
    ≤ Calendar.MAXORDINAL →
  _compute_date_range self env state = Ok []
  ∧ _process_dates self env state = Ok (mk_pass 0 initial_vars None None)
  ∧ run_pass self env state = state.
Proof.
  intros Habsent HL Hstart.
  assert (_compute_date_range self env state = Ok []) as Hrange.
  { unfold _compute_date_range. cbv zeta.
    rewrite (read_absent _ _ Habsent), add_days_Ok by lia.
    change (mbind ?f (Ok ?x)) with (f x). cbv beta.
    rewrite (date_loop_result (today env) _ _ [] eq_refl).
    unfold turns. cbn [toordinal time_of_day today replace_midnight midnight].
    rewrite Z.leb_refl, decide_False by lia. by rewrite seqZ_nil by lia. }
  split; [done|].
  assert (_process_dates self env state = Ok (mk_pass 0 initial_vars None None))
    as Hpass by (unfold _process_dates; by rewrite Hrange).
  split; [done|]. unfold run_pass. by rewrite Hpass.
Qed.

Lemma negative_lookback_does_nothing_witness :
  _compute_date_range (Scenario.connector (-3)) Scenario.all_fine None = Ok []
  ∧ run_pass (Scenario.connector (-3)) Scenario.all_fine None = None.
Proof.
  destruct (negative_lookback_does_nothing (Scenario.connector (-3))
              Scenario.all_fine None) as (Hrange & _ & Hstate).
  - exact I.
  - reflexivity.
  - vm_compute. split; discriminate.
  - split; [exact Hrange|exact Hstate].
Defined.

(** X8: a watermark that carries a time of day after midnight keeps it:
    the range is the days after the watermark's, each at that time of day,
    and since today is compared at midnight the last of them is yesterday:
    today's report is not fetched in this pass. *)
Theorem watermark_time_of_day_leaves_today_out self env st s w :
  st !! "last_processed_date" = Some (PyStr s) →
  fromisoformat env s = Some w →
  0 < time_of_day w →
  Calendar.MINORDINAL ≤ toordinal w + 1 ≤ Calendar.MAXORDINAL →
  toordinal (today env) < Calendar.MAXORDINAL →
  _compute_date_range self env (Some st)
  = Ok (on_day (time_of_day w)
          <$> seqZ (toordinal w + 1)
                   (toordinal (today env) - toordinal w - 1))
  ∧ ∀ dates, _compute_date_range self env (Some st) = Ok dates →
      ∀ d, d ∈ dates →
           toordinal d < toordinal (today env)
           ∧ time_of_day d = time_of_day w.
Proof.
  intros Hst Hs Htime Hw Hclock.
  assert (_compute_date_range self env (Some st)
          = Ok (on_day (time_of_day w)
                  <$> seqZ (toordinal w + 1)
                           (toordinal (today env) - toordinal w - 1)))
    as Hrange.
  { unfold _compute_date_range. cbv zeta.
    rewrite (read_present _ _ _ Hst), Hs, add_days_Ok by lia.
    change (mbind ?f (Ok ?x)) with (f x). cbv beta.
    assert (turns (today env)
              (mk_datetime (toordinal w + 1) (time_of_day w))
            = toordinal (today env) - toordinal w - 1) as Hturns.
    { unfold turns.
      cbn [toordinal time_of_day today replace_midnight midnight].
      destruct (Z.leb_spec (time_of_day w) 0); lia. }
    unfold dt_gt. rewrite dt_le_turns, Hturns.
    case_bool_decide as Hmore; cbn [negb].
    - rewrite date_loop_Ok by (cbn [toordinal]; lia). by rewrite Hturns.
    - by rewrite seqZ_nil by lia. }
  split; [done|]. intros dates. rewrite Hrange. intros [= <-] d.
  intros [Ht Hd]%days_elem_of. split; [simpl; lia|done].
Qed.

Lemma watermark_time_of_day_leaves_today_out_witness :
  _compute_date_range (Scenario.connector 2) Later.reads_afternoon
    (Scenario.state_of (PyStr "2024-03-07T15:00:00+00:00"))
  = Ok [mk_datetime (Calendar.ymd2ord 2024 3 8) Later.afternoon;
        mk_datetime (Calendar.ymd2ord 2024 3 9) Later.afternoon].
Proof.
  destruct (watermark_time_of_day_leaves_today_out (Scenario.connector 2)
              Later.reads_afternoon
              {[ "last_processed_date" := PyStr "2024-03-07T15:00:00+00:00";
                 "last_run" := PyStr "2024-03-07T12:01:00+00:00" ]}
              "2024-03-07T15:00:00+00:00"
              (mk_datetime (Calendar.ymd2ord 2024 3 7) Later.afternoon))
    as [Hrange _].
  - vm_compute; reflexivity.
  - vm_compute; reflexivity.
  - reflexivity.
  - vm_compute. split; discriminate.
  - vm_compute; reflexivity.
  - unfold Scenario.state_of. rewrite Hrange. vm_compute; reflexivity.
Defined.

(** X9: on a first run with a clock that reads a date, the range
    computation raises [OverflowError] exactly when today minus
    [lookback_days] is not a date, or when today is 9999-12-31 and the
    loop has to step past it; the pass then raises before any effect and
    the turn of [run] leaves the state as it is. *)
Theorem first_run_overflows_exactly_out_of_range self env state :
  watermark_absent state →
  Calendar.MINORDINAL ≤ toordinal (today env) ≤ Calendar.MAXORDINAL →
  (_compute_date_range self env state = Raise OverflowError ↔
   toordinal (today env) - lookback_days self < Calendar.MINORDINAL
   ∨ Calendar.MAXORDINAL < toordinal (today env) - lookback_days self
   ∨ (0 ≤ lookback_days self ∧ toordinal (today env) = Calendar.MAXORDINAL))
  ∧ (_compute_date_range self env state = Raise OverflowError →
     _process_dates self env state = Raise OverflowError
     ∧ run_pass self env state = state).
Proof.
  intros Habsent Hclock. split.
  - unfold _compute_date_range. cbv zeta. rewrite (read_absent _ _ Habsent).
    destruct (decide (Calendar.MINORDINAL
                        ≤ toordinal (today env) + - lookback_days self
                        ≤ Calendar.MAXORDINAL)) as [Hin|Hout].
    + rewrite add_days_Ok by done.
      change (mbind ?f (Ok ?x)) with (f x). cbv beta.
      rewrite (date_loop_result (today env) _ _ [] eq_refl).
      unfold turns. cbn [toordinal time_of_day].
      change (time_of_day (today env)) with 0.
      rewrite Z.leb_refl. case_decide; split; (done || lia).
    + rewrite add_days_Raise by done. split; [lia|done].
  - intros Hraise. unfold run_pass, _process_dates. by rewrite Hraise.
Qed.

Lemma first_run_overflows_exactly_out_of_range_witness :
  _compute_date_range (Scenario.connector 800000) Scenario.all_fine None
  = Raise OverflowError
  ∧ run_pass (Scenario.connector 800000) Scenario.all_fine None = None.
Proof.
  destruct (first_run_overflows_exactly_out_of_range
              (Scenario.connector 800000) Scenario.all_fine None)
    as [Hiff Hpass].
  - exact I.
  - vm_compute. split; discriminate.
  - assert (_compute_date_range (Scenario.connector 800000)
              Scenario.all_fine None = Raise OverflowError) as Hraise.
    { apply Hiff. left. vm_compute. reflexivity. }
    split; [exact Hraise|]. apply Hpass, Hraise.
Defined.


(** X11: validation looks at ["type"] and ["objects"] only: adding,
    changing or removing any other field of a payload does not change the
    verdict, and a dict with ["type"] ["bundle"] and a list under
    ["objects"] is valid whatever the list holds (the empty list
    included) and whatever else the dict holds. *)
Theorem validation_ignores_other_fields fields key value items :
  key ≠ "type" → key ≠ "objects" →
  _validate_stix_bundle (PyDict (<[key := value]> fields))
  = _validate_stix_bundle (PyDict fields)
  ∧ _validate_stix_bundle (PyDict (delete key fields))
    = _validate_stix_bundle (PyDict fields)
  ∧ _validate_stix_bundle
      (PyDict (<["type" := PyStr "bundle"]>
                 (<["objects" := PyList items]> fields))) = true.
Proof.
  intros Htype Hobjects.
  unfold _validate_stix_bundle, dict_getitem, dict_get, dict_contains.
  cbn [isinstance_dict negb].
  rewrite !lookup_insert_ne, !lookup_delete_ne by done.
  split; [done|]. split; [done|].
  rewrite lookup_insert_eq, lookup_insert_ne, lookup_insert_eq by done.
  reflexivity.
Qed.

Lemma validation_ignores_other_fields_witness :
  _validate_stix_bundle
    (PyDict (<["id" := PyStr "bundle--1"]>
               {[ "type" := PyStr "bundle"; "objects" := PyList [] ]}))
  = _validate_stix_bundle
      (PyDict {[ "type" := PyStr "bundle"; "objects" := PyList [] ]}).
Proof.
  apply (validation_ignores_other_fields
           {[ "type" := PyStr "bundle"; "objects" := PyList [] ]}
           "id" (PyStr "bundle--1") []); discriminate.
Defined.

(** * The calendar, the URL and the persisted string *)

Lemma all_from_spec check count : ∀ n,
  all_from check n count = true →
  ∀ i, n ≤ i < n + Z.of_nat count → check i = true.
Proof.
  induction count as [|count IH]; intros n Hall i Hi; [lia|].
  simpl in Hall. apply andb_true_iff in Hall as [Hn Hrest].
  destruct (decide (i = n)) as [->|Hne]; [done|].
  apply (IH (n + 1)); [done|lia].
Qed.

Lemma month_day_common : all_from (month_day_ok false) 0 365 = true.
Proof. vm_compute. reflexivity. Qed.

Lemma month_day_leap : all_from (month_day_ok true) 0 365 = true.
Proof. vm_compute. reflexivity. Qed.

Lemma ord2ymd_parts n :
  1 ≤ n →
  ∃ a b c e r,
    n - 1 = 146097 * a + 36524 * b + 1461 * c + 365 * e + r
    ∧ 0 ≤ a ∧ 0 ≤ b ∧ 0 ≤ c ∧ 0 ≤ e ∧ 0 ≤ r < 365
    ∧ 36524 * b + 1461 * c + 365 * e + r < 146097
    ∧ 1461 * c + 365 * e + r < 36524
    ∧ 365 * e + r < 1461
    ∧ Calendar.ord2ymd n
      = if (e =? 4) || (b =? 4)
        then (400 * a + 100 * b + 4 * c + e, 12, 31)
        else
          let '(m, d) :=
            month_day r ((e =? 3) && (negb (c =? 24) || (b =? 3))) in
          (400 * a + 100 * b + 4 * c + e + 1, m, d).
Proof.
  intros Hn.
  exists ((n - 1) / 146097), ((n - 1) mod 146097 / 36524),
    ((n - 1) mod 146097 mod 36524 / 1461),
    ((n - 1) mod 146097 mod 36524 mod 1461 / 365),
    ((n - 1) mod 146097 mod 36524 mod 1461 mod 365).
  split; [Z.div_mod_to_equations; lia|].
  split; [Z.div_mod_to_equations; lia|].
  split; [Z.div_mod_to_equations; lia|].
  split; [Z.div_mod_to_equations; lia|].
  split; [Z.div_mod_to_equations; lia|].
  split; [Z.div_mod_to_equations; lia|].
  split; [Z.div_mod_to_equations; lia|].
  split; [Z.div_mod_to_equations; lia|].
  split; [Z.div_mod_to_equations; lia|].
  unfold Calendar.ord2ymd, month_day, Calendar.DI400Y, Calendar.DI100Y,
    Calendar.DI4Y. cbv zeta.
  destruct (_ || _); [do 2 f_equal; lia|].
  destruct (_ <? _); do 2 f_equal; lia.
Qed.

Lemma days_before_year_parts a b c e :
  0 ≤ a → 0 ≤ b ≤ 3 → 0 ≤ c ≤ 24 → 0 ≤ e ≤ 3 →
  Calendar.days_before_year (400 * a + 100 * b + 4 * c + e + 1)
  = 146097 * a + 36524 * b + 1461 * c + 365 * e.
Proof.
  intros Ha Hb Hc He. unfold Calendar.days_before_year. cbv zeta.
  Z.div_mod_to_equations. lia.
Qed.

Lemma is_leap_parts a b c e :
  0 ≤ a → 0 ≤ b ≤ 3 → 0 ≤ c ≤ 24 → 0 ≤ e ≤ 3 →
  Calendar.is_leap (400 * a + 100 * b + 4 * c + e + 1)
  = (e =? 3) && (negb (c =? 24) || (b =? 3)).
Proof.
  intros Ha Hb Hc He. unfold Calendar.is_leap.
  destruct (Z.eqb_spec ((400 * a + 100 * b + 4 * c + e + 1) mod 4) 0);
    destruct (Z.eqb_spec ((400 * a + 100 * b + 4 * c + e + 1) mod 100) 0);
    destruct (Z.eqb_spec ((400 * a + 100 * b + 4 * c + e + 1) mod 400) 0);
    destruct (Z.eqb_spec e 3); destruct (Z.eqb_spec c 24);
    destruct (Z.eqb_spec b 3); simpl; try reflexivity;
    exfalso; Z.div_mod_to_equations; lia.
Qed.

Lemma month_day_spec r leapyear :
  0 ≤ r < 365 →
  ∃ m d,
    month_day r leapyear = (m, d)
    ∧ 1 ≤ m ≤ 12 ∧ 1 ≤ d ≤ 31
    ∧ default 0 (Calendar.DAYS_BEFORE_MONTH !! Z.to_nat m)
      + (if (2 <? m) && leapyear then 1 else 0) + d = r + 1.
Proof.
  intros Hr.
  assert (month_day_ok leapyear r = true) as Hok.
  { destruct leapyear.
    - apply (all_from_spec _ _ 0 month_day_leap). lia.
    - apply (all_from_spec _ _ 0 month_day_common). lia. }
  unfold month_day_ok in Hok. destruct (month_day r leapyear) as [m d].
  repeat (apply andb_true_iff in Hok as [Hok ?]).
  exists m, d. split; [done|]. lia.
Qed.

(** Every day [datetime] has comes back from its year, month and day, and
    these are a year from 1 to 9999, a month and a day of month. *)
Lemma ord2ymd_ymd2ord n :
  Calendar.MINORDINAL ≤ n ≤ Calendar.MAXORDINAL →
  ∃ y m d,
    Calendar.ord2ymd n = (y, m, d)
    ∧ Calendar.ymd2ord y m d = n
    ∧ 1 ≤ y ≤ 9999 ∧ 1 ≤ m ≤ 12 ∧ 1 ≤ d ≤ 31.
Proof.
  unfold Calendar.MINORDINAL, Calendar.MAXORDINAL. intros Hn.
  destruct (ord2ymd_parts n ltac:(lia))
    as (a & b & c & e & r & Hsplit & Ha & Hb & Hc & He & Hr & H400 & H100
        & H4 & ->).
  destruct (Z.eqb_spec e 4) as [->|He4]; simpl.
  { assert (r = 0) as -> by lia. assert (b ≤ 3) by lia. assert (c ≤ 23) by lia.
    exists (400 * a + 100 * b + 4 * c + 4), 12, 31. split; [done|].
    split; [|lia].
    replace (400 * a + 100 * b + 4 * c + 4)
      with (400 * a + 100 * b + 4 * c + 3 + 1) by lia.
    unfold Calendar.ymd2ord, Calendar.days_before_month.
    rewrite days_before_year_parts, is_leap_parts by lia.
    destruct (Z.eqb_spec c 24); [lia|]. simpl. lia. }
  destruct (Z.eqb_spec b 4) as [->|Hb4]; simpl.
  { assert (c = 0) as -> by lia. assert (e = 0) as -> by lia.
    assert (r = 0) as -> by lia.
    exists (400 * a + 100 * 4 + 4 * 0 + 0), 12, 31. split; [done|].
    split; [|lia].
    replace (400 * a + 100 * 4 + 4 * 0 + 0)
      with (400 * a + 100 * 3 + 4 * 24 + 3 + 1) by lia.
    unfold Calendar.ymd2ord, Calendar.days_before_month.
    rewrite days_before_year_parts, is_leap_parts by lia. simpl. lia. }
  assert (b ≤ 3 ∧ e ≤ 3 ∧ c ≤ 24) as (Hb3 & He3 & Hc24) by lia.
  destruct (month_day_spec r ((e =? 3) && (negb (c =? 24) || (b =? 3))) Hr)
    as (m & d & -> & Hm & Hd & Hdays).
  exists (400 * a + 100 * b + 4 * c + e + 1), m, d. split; [done|].
  split; [|lia].
  unfold Calendar.ymd2ord, Calendar.days_before_month.
  rewrite days_before_year_parts, is_leap_parts by lia. lia.
Qed.

Lemma four_digits_ok : all_from (pad_ok 4) 1 (Z.to_nat 9999) = true.
Proof. vm_compute. reflexivity. Qed.

Lemma two_digits_ok : all_from (pad_ok 2) 0 (Z.to_nat 100) = true.
Proof. vm_compute. reflexivity. Qed.

Lemma pad_four y :
  1 ≤ y ≤ 9999 →
  String.length (Calendar.zero_pad 4 y) = 4%nat
  ∧ Scenario.number (Calendar.zero_pad 4 y) 0 = Some y.
Proof.
  intros Hy.
  pose proof (all_from_spec (pad_ok 4) _ 1 four_digits_ok y) as Hcheck.
  rewrite Z2Nat.id in Hcheck by done. specialize (Hcheck ltac:(lia)).
  apply andb_true_iff in Hcheck as [Hlength Hnumber].
  by apply bool_decide_eq_true in Hlength, Hnumber.
Qed.

Lemma pad_two z :
  0 ≤ z ≤ 99 →
  String.length (Calendar.zero_pad 2 z) = 2%nat
  ∧ Scenario.number (Calendar.zero_pad 2 z) 0 = Some z.
Proof.
  intros Hz.
  pose proof (all_from_spec (pad_ok 2) _ 0 two_digits_ok z) as Hcheck.
  rewrite Z2Nat.id in Hcheck by done. specialize (Hcheck ltac:(lia)).
  apply andb_true_iff in Hcheck as [Hlength Hnumber].
  by apply bool_decide_eq_true in Hlength, Hnumber.
Qed.

Lemma append_inj_length (a1 a2 b1 b2 : string) :
  String.length a1 = String.length a2 →
  a1 ++ b1 = a2 ++ b2 → a1 = a2 ∧ b1 = b2.
Proof.
  revert a2. induction a1 as [|c1 a1 IH]; intros [|c2 a2]; simpl;
    try done.
  intros [= Hlength] [= -> Happ]. by destruct (IH _ Hlength Happ) as [-> ->].
Qed.

Lemma format_default_template year month day lang :
  str_format _BASE_URL (url_fields year month day lang)
  = Some (default_url year month day lang).
Proof. vm_compute. reflexivity. Qed.




(** X13: with the default template the URL of a date depends on its day
    only, and no two days share one: for dates from the year 1000 on, the
    URLs are equal exactly when the days are, so each day of a range
    fetches a report of its own. *)
Theorem distinct_days_have_distinct_urls self d1 d2 :
  base_url self = _BASE_URL →
  Calendar.ymd2ord 1000 1 1 ≤ toordinal d1 ≤ Calendar.MAXORDINAL →
  Calendar.ymd2ord 1000 1 1 ≤ toordinal d2 ≤ Calendar.MAXORDINAL →
  is_Some (_build_url self d1)
  ∧ (_build_url self d1 = _build_url self d2 ↔ toordinal d1 = toordinal d2).
Proof.
  intros Htemplate Hd1 Hd2.
  assert (Calendar.ymd2ord 1000 1 1 = 364878) as H1000 by reflexivity.
  destruct (ord2ymd_ymd2ord (toordinal d1))
    as (y1 & m1 & dd1 & Hymd1 & Hord1 & Hy1 & Hm1 & Hdd1);
    [unfold Calendar.MINORDINAL; lia|].
  destruct (ord2ymd_ymd2ord (toordinal d2))
    as (y2 & m2 & dd2 & Hymd2 & Hord2 & Hy2 & Hm2 & Hdd2);
    [unfold Calendar.MINORDINAL; lia|].
  split.
  { unfold _build_url. rewrite Htemplate, format_default_template.
    by eexists. }
  split; [|unfold _build_url, strftime_Y, strftime_m, strftime_d;
           by intros ->].
  unfold _build_url, strftime_Y, strftime_m, strftime_d.
  rewrite Htemplate, Hymd1, Hymd2, !format_default_template.
  destruct (pad_four y1 Hy1) as [Hly1 Hny1].
  destruct (pad_four y2 Hy2) as [Hly2 Hny2].
  destruct (pad_two m1 ltac:(lia)) as [Hlm1 Hnm1].
  destruct (pad_two m2 ltac:(lia)) as [Hlm2 Hnm2].
  destruct (pad_two dd1 ltac:(lia)) as [Hld1 Hnd1].
  destruct (pad_two dd2 ltac:(lia)) as [Hld2 Hnd2].
  unfold default_url. intros [= Hurl].
  apply append_inj_length in Hurl as [_ Hurl]; [|done].
  apply append_inj_length in Hurl as [HY Hurl]; [|congruence].
  apply append_inj_length in Hurl as [_ Hurl]; [|done].
  apply append_inj_length in Hurl as [HM Hurl]; [|congruence].
  apply append_inj_length in Hurl as [_ Hurl]; [|done].
  apply append_inj_length in Hurl as [_ Hurl]; [|congruence].
  apply append_inj_length in Hurl as [_ Hurl]; [|done].
  apply append_inj_length in Hurl as [_ Hurl]; [|congruence].
  apply append_inj_length in Hurl as [_ Hurl]; [|done].
  apply append_inj_length in Hurl as [HD _]; [|congruence].
  assert (y1 = y2) as -> by congruence.
  assert (m1 = m2) as -> by congruence.
  assert (dd1 = dd2) as -> by congruence.
  congruence.
Qed.

Lemma distinct_days_have_distinct_urls_witness :
  _build_url (Scenario.connector 2) (utc_date 2024 3 9)
  ≠ _build_url (Scenario.connector 2) (utc_date 2024 3 10)
  ∧ _build_url (Scenario.connector 2) (utc_date 2024 3 9)
    = _build_url (Scenario.connector 2)
        (mk_datetime (Calendar.ymd2ord 2024 3 9) Scenario.noon).
Proof.
  split.
  - destruct (distinct_days_have_distinct_urls (Scenario.connector 2)
                (utc_date 2024 3 9) (utc_date 2024 3 10)) as [_ Hsame].
    + reflexivity.
    + vm_compute. split; discriminate.
    + vm_compute. split; discriminate.
    + intros Hurl. apply Hsame in Hurl. vm_compute in Hurl. discriminate.
  - destruct (distinct_days_have_distinct_urls (Scenario.connector 2)
                (utc_date 2024 3 9)
                (mk_datetime (Calendar.ymd2ord 2024 3 9) Scenario.noon))
      as [_ Hsame].
    + reflexivity.
    + vm_compute. split; discriminate.
    + vm_compute. split; discriminate.
    + apply Hsame. reflexivity.
Defined.

Lemma isoformat_midnight o y m d :
  Calendar.ord2ymd o = (y, m, d) →
  isoformat (midnight o)
  = Calendar.zero_pad 4 y ++ "-" ++ Calendar.zero_pad 2 m ++ "-"
    ++ Calendar.zero_pad 2 d ++ "T00:00:00+00:00".
Proof.
  intros Hymd. unfold isoformat, midnight. cbn [toordinal time_of_day].
  rewrite Hymd. reflexivity.
Qed.

(** X14: the string persisted under ["last_processed_date"] determines
    the day: two midnight dates that [datetime] has and whose persisted
    states carry the same string are the same date, so a watermark read
    back can only be the day that was written. *)
Theorem watermark_string_determines_the_day env1 env2 d1 d2 :
  Calendar.MINORDINAL ≤ toordinal d1 ≤ Calendar.MAXORDINAL →
  Calendar.MINORDINAL ≤ toordinal d2 ≤ Calendar.MAXORDINAL →
  time_of_day d1 = 0 → time_of_day d2 = 0 →
  new_state env1 d1 !! "last_processed_date"
  = new_state env2 d2 !! "last_processed_date" →
  d1 = d2.
Proof.
  intros Hd1 Hd2 Ht1 Ht2. rewrite !new_state_watermark. intros [= Hiso].
  destruct d1 as [o1 t1], d2 as [o2 t2]. simpl in *. subst t1 t2.
  destruct (ord2ymd_ymd2ord o1 Hd1)
    as (y1 & m1 & dd1 & Hymd1 & Hord1 & Hy1 & Hm1 & Hdd1).
  destruct (ord2ymd_ymd2ord o2 Hd2)
    as (y2 & m2 & dd2 & Hymd2 & Hord2 & Hy2 & Hm2 & Hdd2).
  change (mk_datetime o1 0) with (midnight o1) in Hiso.
  change (mk_datetime o2 0) with (midnight o2) in Hiso.
  rewrite (isoformat_midnight _ _ _ _ Hymd1),
    (isoformat_midnight _ _ _ _ Hymd2) in Hiso.
  destruct (pad_four y1 Hy1) as [Hly1 Hny1].
  destruct (pad_four y2 Hy2) as [Hly2 Hny2].
  destruct (pad_two m1 ltac:(lia)) as [Hlm1 Hnm1].
  destruct (pad_two m2 ltac:(lia)) as [Hlm2 Hnm2].
  destruct (pad_two dd1 ltac:(lia)) as [Hld1 Hnd1].
  destruct (pad_two dd2 ltac:(lia)) as [Hld2 Hnd2].
  apply append_inj_length in Hiso as [HY Hiso]; [|congruence].
  apply append_inj_length in Hiso as [_ Hiso]; [|done].
  apply append_inj_length in Hiso as [HM Hiso]; [|congruence].
  apply append_inj_length in Hiso as [_ Hiso]; [|done].
  apply append_inj_length in Hiso as [HD _]; [|congruence].
  assert (y1 = y2) as -> by congruence.
  assert (m1 = m2) as -> by congruence.
  assert (dd1 = dd2) as -> by congruence.
  f_equal. congruence.
Qed.

Lemma watermark_string_determines_the_day_witness :
  new_state Scenario.section8 (utc_date 2024 3 9) !! "last_processed_date"
  = new_state Scenario.all_fine (mk_datetime 738954 0) !! "last_processed_date"
  ∧ utc_date 2024 3 9 = mk_datetime 738954 0.
Proof.
  split; [vm_compute; reflexivity|].
  apply (watermark_string_determines_the_day Scenario.section8
           Scenario.all_fine (utc_date 2024 3 9) (mk_datetime 738954 0)).
  - vm_compute. split; discriminate.
  - vm_compute. split; discriminate.
  - reflexivity.
  - reflexivity.
  - vm_compute; reflexivity.
Defined.
